(** * smart-connect-hub: registration form and admin dashboard

    A shallow embedding of the validation rules, the photo check, the
    file-upload change handler, the client-side filter and pagination of the
    registrations table, and the delete, update and export handlers of the
    admin dashboard, followed by the properties proved about them.

    Conventions.
    - A JavaScript string is a [string]: a sequence of code units, here the
      code units below 256 (the Latin-1 range).  [toLowerCase] and [trim]
      are the ECMAScript functions restricted to that range.
    - A JavaScript number that holds an index, a length, a byte count or a
      page number is a [Z].
    - An array is a [list]; [slice] keeps the negative-index rule of
      [Array.prototype.slice].
    - A call to the hosted backend is an outcome handed to the handler: the
      promise either resolves with an optional error or rejects. *)

From Stdlib Require Import ZArith Lia Ascii String.
From Stdlib Require QArith Qround.
From stdpp Require Import base option list strings gmap.

Local Open Scope string_scope.
Local Open Scope list_scope.
Local Open Scope Z_scope.

(** ** ECMAScript built-ins used by the sources *)

Module JS.

(** Code-unit value of a character. *)
Definition unit_of (c : ascii) : N := N_of_ascii c.

(** Lower-casing of one code unit of the Latin-1 range: A-Z, and
    U+00C0..U+00DE except the multiplication sign U+00D7. *)
Definition lower_unit (c : ascii) : ascii :=
  let n := unit_of c in
  if (((65 <=? n) && (n <=? 90))
      || ((192 <=? n) && (n <=? 222) && negb (n =? 215)))%N
  then ascii_of_N (n + 32) else c.

(** [String.prototype.toLowerCase]. *)
Fixpoint toLowerCase (s : string) : string :=
  match s with
  | EmptyString => EmptyString
  | String c r => String (lower_unit c) (toLowerCase r)
  end.

(** [String.prototype.startsWith]. *)
Fixpoint startsWith (s search : string) : bool :=
  match search, s with
  | EmptyString, _ => true
  | String _ _, EmptyString => false
  | String a search', String b s' => Ascii.eqb a b && startsWith s' search'
  end.

(** [String.prototype.includes]: [search] occurs at some offset of [s]. *)
Fixpoint includes (s search : string) : bool :=
  startsWith s search
  || match s with
     | EmptyString => false
     | String _ s' => includes s' search
     end.

(** White space of the Latin-1 range: TAB, LF, VT, FF, CR, SPACE, NBSP. *)
Definition is_space (c : ascii) : bool :=
  let n := unit_of c in
  (((9 <=? n) && (n <=? 13)) || (n =? 32) || (n =? 160))%N.

Fixpoint trimStart (s : string) : string :=
  match s with
  | EmptyString => EmptyString
  | String c r => if is_space c then trimStart r else s
  end.

Fixpoint trimEnd (s : string) : string :=
  match s with
  | EmptyString => EmptyString
  | String c r =>
      match trimEnd r with
      | EmptyString => if is_space c then EmptyString else String c EmptyString
      | r' => String c r'
      end
  end.

(** [String.prototype.trim]. *)
Definition trim (s : string) : string := trimEnd (trimStart s).

(** The class [\d] of a regular expression without the [u] flag. *)
Definition is_digit (c : ascii) : bool :=
  let n := unit_of c in ((48 <=? n) && (n <=? 57))%N.

(** [Array.prototype.includes] on an array of strings (strict equality). *)
Definition array_includes (xs : list string) (x : string) : bool :=
  existsb (String.eqb x) xs.

(** [Array.prototype.slice (start, end)]: a negative index counts from the
    end of the array, every index is clamped to the array. *)
Definition slice_index (len i : Z) : Z :=
  if i <? 0 then Z.max (len + i) 0 else Z.min i len.

Definition slice {A} (l : list A) (start finish : Z) : list A :=
  let len := Z.of_nat (length l) in
  let k := slice_index len start in
  let fin := slice_index len finish in
  take (Z.to_nat (fin - k)) (drop (Z.to_nat k) l).

(** [Math.ceil (a / b)] on integer-valued numbers: the quotient is taken
    in the rationals and then rounded up. *)
Definition ceil_div (a b : Z) : Z :=
  Qround.Qceiling
    (QArith_base.Qdiv (QArith_base.inject_Z a) (QArith_base.inject_Z b)).

(** [String.prototype.split] with a one-character separator. *)
Fixpoint split (sep : ascii) (s : string) : list string :=
  match s with
  | EmptyString => [EmptyString]
  | String c r =>
      if Ascii.eqb c sep then EmptyString :: split sep r
      else match split sep r with
           | [] => [String c EmptyString]
           | seg :: segs => String c seg :: segs
           end
  end.

(** [Array.prototype.join]. *)
Fixpoint join (sep : string) (xs : list string) : string :=
  match xs with
  | [] => EmptyString
  | [x] => x
  | x :: rest => x +:+ sep +:+ join sep rest
  end.

End JS.

(** ** src/types/registration.ts *)

Inductive gender_type : Set := male | female | other.

Module Registration.
Record t : Set := mk {
  id : string;
  full_name : string;
  mobile_number : string;
  email : string;
  gender : gender_type;
  department : string;
  address : string;
  photo_url : string;
  created_at : string;
  updated_at : string;
}.
End Registration.

Abbreviation Registration := Registration.t.

(** [Partial<Registration>]: each key is present or absent. *)
Module Partial.
Record t : Set := mk {
  id : option string;
  full_name : option string;
  mobile_number : option string;
  email : option string;
  gender : option gender_type;
  department : option string;
  address : option string;
  photo_url : option string;
  created_at : option string;
  updated_at : option string;
}.
End Partial.

(** Object spread [{ ...r, ...data }]: a key of [data] overrides [r]. *)
Definition spread (r : Registration) (data : Partial.t) : Registration :=
  {| Registration.id := default (Registration.id r) (Partial.id data);
     Registration.full_name :=
       default (Registration.full_name r) (Partial.full_name data);
     Registration.mobile_number :=
       default (Registration.mobile_number r) (Partial.mobile_number data);
     Registration.email := default (Registration.email r) (Partial.email data);
     Registration.gender :=
       default (Registration.gender r) (Partial.gender data);
     Registration.department :=
       default (Registration.department r) (Partial.department data);
     Registration.address :=
       default (Registration.address r) (Partial.address data);
     Registration.photo_url :=
       default (Registration.photo_url r) (Partial.photo_url data);
     Registration.created_at :=
       default (Registration.created_at r) (Partial.created_at data);
     Registration.updated_at :=
       default (Registration.updated_at r) (Partial.updated_at data) |}.

(** A browser [File]: name, declared media type and size in bytes. *)
Module File.
Record t : Set := mk {
  name : string;
  type : string;
  size : Z;
}.
End File.

(** ** src/lib/validations.ts *)

Module Validations.

(** The regular expression [/^\d{10}$/]: from the start of the input,
    [count] characters of class [\d], then the end of the input. *)
Fixpoint match_digits (count : nat) (s : string) : option string :=
  match count with
  | O => Some s
  | S n =>
      match s with
      | String c r => if JS.is_digit c then match_digits n r else None
      | EmptyString => None
      end
  end.

Definition regex_ten_digits (s : string) : bool :=
  match match_digits 10 s with
  | Some EmptyString => true
  | _ => false
  end.

(** [mobileNumber: z.string().trim().regex(/^\d{10}$/, ...)]: the parsed
    value on success, the message on failure. *)
Definition mobileNumber (input : string) : string + string :=
  let v := JS.trim input in
  if regex_ten_digits v then inl v
  else inr "Mobile number must be exactly 10 digits".

Definition mobileNumber_accepts (input : string) : bool :=
  match mobileNumber input with inl _ => true | inr _ => false end.

Definition DEPARTMENTS : list string :=
  [ "Engineering"; "Marketing"; "Sales"; "Human Resources"; "Finance";
    "Operations"; "Customer Support"; "Research & Development"; "Legal";
    "Other" ].

Definition MAX_FILE_SIZE : Z := 2 * 1024 * 1024.

Definition ACCEPTED_IMAGE_TYPES : list string :=
  [ "image/jpeg"; "image/jpg"; "image/png" ].

(** [RegistrationFormData]: the parsed output of [registrationSchema]. *)
Record RegistrationFormData : Set := mkForm {
  fullName : string;
  mobileNumber_ : string;
  email : string;
  gender : gender_type;
  department : string;
  address : string;
}.

(** A chain [z.string().trim().min(lo, m_lo).max(hi, m_hi)]: the checks
    run on the trimmed value, in the order written; the parsed value on
    success, the first message on failure. *)
Definition trimmed_length_rule (lo hi : nat) (m_lo m_hi : string)
    (input : string) : string + string :=
  let v := JS.trim input in
  if (String.length v <? lo)%nat then inr m_lo
  else if (hi <? String.length v)%nat then inr m_hi
  else inl v.

(** [fullName] of [registrationSchema]. *)
Definition check_fullName : string -> string + string :=
  trimmed_length_rule 2 100
    "Full name must be at least 2 characters"
    "Full name must be less than 100 characters".

(** [address] of [registrationSchema]. *)
Definition check_address : string -> string + string :=
  trimmed_length_rule 10 500
    "Address must be at least 10 characters"
    "Address must be less than 500 characters".

(** [department: z.string().min(1, ...)]: no trim. *)
Definition check_department (input : string) : string + string :=
  if (String.length input <? 1)%nat then inr "Please select a department"
  else inl input.

(** [password] of [loginSchema]: [min(6)] then [max(100)], no trim. *)
Definition check_password (input : string) : string + string :=
  if (String.length input <? 6)%nat
  then inr "Password must be at least 6 characters"
  else if (100 <? String.length input)%nat
  then inr "Password must be less than 100 characters"
  else inl input.

(** [email] of [registrationSchema]:
    [z.string().trim().email(...).max(255, ...)].  The pattern that the
    library tests an address against is not part of the sources; it is
    the parameter [email_ok]. *)
Definition check_email (email_ok : string -> bool) (input : string)
    : string + string :=
  let v := JS.trim input in
  if negb (email_ok v) then inr "Please enter a valid email address"
  else if (255 <? String.length v)%nat
  then inr "Email must be less than 255 characters"
  else inl v.

(** [registrationSchema] on the values of a form whose gender is set: the
    parsed values when every field passes, nothing otherwise. *)
Definition registrationSchema (email_ok : string -> bool)
    (values : RegistrationFormData) : option RegistrationFormData :=
  match check_fullName (fullName values) with
  | inr _ => None
  | inl n =>
  match mobileNumber (mobileNumber_ values) with
  | inr _ => None
  | inl m =>
  match check_email email_ok (email values) with
  | inr _ => None
  | inl e =>
  match check_department (department values) with
  | inr _ => None
  | inl d =>
  match check_address (address values) with
  | inr _ => None
  | inl a =>
      Some {| fullName := n; mobileNumber_ := m; email := e;
              gender := gender values; department := d; address := a |}
  end end end end end.

End Validations.

(** ** src/components/ui/file-upload.tsx *)

Module FileUpload.

(** What the change handler does to its surroundings: a call of the
    [onChange] prop, a [setPreview] of its own state, or the start of a
    [FileReader] whose [onloadend] sets the preview later. *)
Inductive effect : Set :=
| OnChange (file : option File.t)
| SetPreview (preview : option string)
| ReadAsDataURL (file : File.t).

Definition handleFileChange (file : option File.t) : list effect :=
  match file with
  | Some f =>
      if negb (JS.array_includes Validations.ACCEPTED_IMAGE_TYPES (File.type f))
      then []
      else if File.size f >? Validations.MAX_FILE_SIZE
      then []
      else [ReadAsDataURL f; OnChange (Some f)]
  | None => [SetPreview None; OnChange None]
  end.

(** [onChange] of the hidden file input: [e.target.files?.[0] || null]. *)
Definition onInputChange (first : option File.t) : list effect :=
  handleFileChange first.

(** [handleDrop]: the handler is called only when a file was dropped. *)
Definition handleDrop (first : option File.t) : list effect :=
  match first with
  | Some f => handleFileChange (Some f)
  | None => []
  end.

(** [clearFile], the button on the preview. *)
Definition clearFile : list effect := handleFileChange None.

(** What a user can do with the control. *)
Inductive action : Set :=
| Pick (first : option File.t)
| Drop (first : option File.t)
| Clear.

Definition effects_of (a : action) : list effect :=
  match a with
  | Pick first => onInputChange first
  | Drop first => handleDrop first
  | Clear => clearFile
  end.

End FileUpload.

(** ** src/components/RegistrationForm.tsx *)

Module RegistrationForm.

(** The photo part of the form: [photoFile] and [photoError] of the form,
    [preview] of the upload control it renders. *)
Record state : Set := mkState {
  photoFile : option File.t;
  photoError : string;
  preview : option string;
}.

(** [validatePhoto]: the returned boolean and the value given to
    [setPhotoError]. *)
Definition validatePhoto (photoFile : option File.t) : bool * string :=
  match photoFile with
  | None => (false, "Please upload a photo")
  | Some f =>
      if negb (JS.array_includes Validations.ACCEPTED_IMAGE_TYPES (File.type f))
      then (false, "Only JPG and PNG files are allowed")
      else if File.size f >? Validations.MAX_FILE_SIZE
      then (false, "File size must be less than 2MB")
      else (true, "")
  end.

Section WithReader.
(** The [result] of the [FileReader] once [readAsDataURL] has ended:
    a data URL, or null when the read failed. *)
Variable reader_result : File.t -> option string.

(** The form passes [onChange={setPhotoFile}] to the upload control. *)
Definition apply_effect (st : state) (e : FileUpload.effect) : state :=
  match e with
  | FileUpload.OnChange f =>
      {| photoFile := f; photoError := photoError st; preview := preview st |}
  | FileUpload.SetPreview p =>
      {| photoFile := photoFile st; photoError := photoError st; preview := p |}
  | FileUpload.ReadAsDataURL f =>
      {| photoFile := photoFile st; photoError := photoError st;
         preview := reader_result f |}
  end.

(** Selecting a file (or clearing the selection with null). *)
Definition select (st : state) (file : option File.t) : state :=
  fold_left apply_effect (FileUpload.handleFileChange file) st.
End WithReader.

(** The state of a fresh form. *)
Definition initial : state :=
  {| photoFile := None; photoError := ""; preview := None |}.

Section WithReaderActions.
Variable reader_result : File.t -> option string.

(** One action on the upload control, then a run of them. *)
Definition act (st : state) (a : FileUpload.action) : state :=
  fold_left (apply_effect reader_result) (FileUpload.effects_of a) st.

Definition acts (st : state) (l : list FileUpload.action) : state :=
  fold_left act l st.
End WithReaderActions.

(** [file.name.split(".").pop()]. *)
Definition fileExt (name : string) : string :=
  default "" (last (JS.split "." name)).

(** The object path of [uploadPhoto]: [now] is the decimal text of
    [Date.now()], [rnd] the text of
    [Math.random().toString(36).substring(7)]. *)
Definition uploadPath (now rnd : string) (file : File.t) : string :=
  let fileName := now +:+ "-" +:+ rnd +:+ "." +:+ fileExt (File.name file) in
  "registrations/" +:+ fileName.

End RegistrationForm.

(** ** src/components/admin/RegistrationsTable.tsx *)

Module RegistrationsTable.

Definition ITEMS_PER_PAGE : Z := 10.

Record state : Set := mkState {
  search : string;
  departmentFilter : string;
  currentPage : Z;
  deleteId : option string;
  deletePhotoUrl : string;
}.

(** [useState] initial values. *)
Definition initial : state :=
  {| search := ""; departmentFilter := "all"; currentPage := 1;
     deleteId := None; deletePhotoUrl := "" |}.

Definition matchesSearch (search : string) (reg : Registration) : bool :=
  JS.includes (JS.toLowerCase (Registration.full_name reg)) (JS.toLowerCase search)
  || JS.includes (Registration.mobile_number reg) search
  || JS.includes (JS.toLowerCase (Registration.email reg)) (JS.toLowerCase search).

Definition matchesDepartment (departmentFilter : string) (reg : Registration) : bool :=
  String.eqb departmentFilter "all"
  || String.eqb (Registration.department reg) departmentFilter.

Definition filteredRegistrations
    (registrations : list Registration) (search departmentFilter : string)
    : list Registration :=
  List.filter
    (fun reg => matchesSearch search reg && matchesDepartment departmentFilter reg)
    registrations.

Definition totalPages (filtered : list Registration) : Z :=
  JS.ceil_div (Z.of_nat (length filtered)) ITEMS_PER_PAGE.

Definition startIndex (currentPage : Z) : Z :=
  (currentPage - 1) * ITEMS_PER_PAGE.

Definition paginatedRegistrations
    (filtered : list Registration) (currentPage : Z) : list Registration :=
  JS.slice filtered (startIndex currentPage)
           (startIndex currentPage + ITEMS_PER_PAGE).

(** The view of a render: filter, then page. *)
Definition view_filtered (registrations : list Registration) (st : state) :=
  filteredRegistrations registrations (search st) (departmentFilter st).

Definition view_totalPages (registrations : list Registration) (st : state) :=
  totalPages (view_filtered registrations st).

Definition view_page (registrations : list Registration) (st : state) :=
  paginatedRegistrations (view_filtered registrations st) (currentPage st).

Definition setCurrentPage (p : Z) (st : state) : state :=
  {| search := search st; departmentFilter := departmentFilter st;
     currentPage := p; deleteId := deleteId st;
     deletePhotoUrl := deletePhotoUrl st |}.

(** [onChange] of the search input. *)
Definition onSearchChange (value : string) (st : state) : state :=
  {| search := value; departmentFilter := departmentFilter st;
     currentPage := 1; deleteId := deleteId st;
     deletePhotoUrl := deletePhotoUrl st |}.

(** [onValueChange] of the department select. *)
Definition onDepartmentChange (value : string) (st : state) : state :=
  {| search := search st; departmentFilter := value;
     currentPage := 1; deleteId := deleteId st;
     deletePhotoUrl := deletePhotoUrl st |}.

Definition clearFilters (st : state) : state :=
  {| search := ""; departmentFilter := "all"; currentPage := 1;
     deleteId := deleteId st; deletePhotoUrl := deletePhotoUrl st |}.

(** The updaters given to [setCurrentPage] by the two page buttons. *)
Definition prev_updater (p : Z) : Z := Z.max 1 (p - 1).
Definition next_updater (totalPages p : Z) : Z := Z.min totalPages (p + 1).

(** The page buttons are rendered when [totalPages > 1]; the previous
    button is disabled on page 1, the next button on the last page.  A
    click on a button that is absent or disabled does nothing. *)
Definition clickPrevious (registrations : list Registration) (st : state) : state :=
  if (view_totalPages registrations st >? 1) && negb (currentPage st =? 1)
  then setCurrentPage (prev_updater (currentPage st)) st
  else st.

Definition clickNext (registrations : list Registration) (st : state) : state :=
  let total := view_totalPages registrations st in
  if (total >? 1) && negb (currentPage st =? total)
  then setCurrentPage (next_updater total (currentPage st)) st
  else st.

Definition handleDeleteClick (id photoUrl : string) (st : state) : state :=
  {| search := search st; departmentFilter := departmentFilter st;
     currentPage := currentPage st; deleteId := Some id;
     deletePhotoUrl := photoUrl |}.

(** [confirmDelete]: with a non-empty [deleteId] (a truthy string) the
    [onDelete] prop is called with the stored pair and the dialog state is
    cleared; the call is not awaited. *)
Definition confirmDelete (st : state) : option (string * string) * state :=
  match deleteId st with
  | Some id =>
      if String.eqb id "" then (None, st)
      else (Some (id, deletePhotoUrl st),
            {| search := search st; departmentFilter := departmentFilter st;
               currentPage := currentPage st; deleteId := None;
               deletePhotoUrl := "" |})
  | None => (None, st)
  end.

(** [onOpenChange] of the dialog: [setDeleteId(null)]. *)
Definition onOpenChange (st : state) : state :=
  {| search := search st; departmentFilter := departmentFilter st;
     currentPage := currentPage st; deleteId := None;
     deletePhotoUrl := deletePhotoUrl st |}.

(** The numbers of the line "Showing a-b of n" under the table, shown
    when [totalPages > 1]. *)
Definition showing (filtered : list Registration) (currentPage : Z) : Z * Z * Z :=
  let n := Z.of_nat (length filtered) in
  (startIndex currentPage + 1,
   Z.min (startIndex currentPage + ITEMS_PER_PAGE) n,
   n).

End RegistrationsTable.

(** ** The spreadsheet library, as far as the export uses it

    [XLSX.utils.json_to_sheet] called without options: the column of a key
    is its position in the header array, which collects the keys of the row
    objects in the order they are first met; object [R] of the array fills
    sheet row [R + 1]; the header array is written to row 0 afterwards. *)

Module XLSX.

(** A row object: string keys in insertion order, string values. *)
Definition row_object : Set := list (string * string).

(** A cell address (row, column), both counted from 0. *)
Definition address : Set := nat * nat.

Record worksheet : Set := mkSheet {
  cells : list (address * string);
  ref_end : address;
}.

Record workbook : Set := mkBook {
  SheetNames : list string;
  Sheets : list (string * worksheet);
}.

Fixpoint indexOf (hdr : list string) (k : string) : option nat :=
  match hdr with
  | [] => None
  | h :: rest => if String.eqb h k then Some O else S <$> indexOf rest k
  end.

Definition add_key (R : nat) (acc : list string * list (address * string))
    (kv : string * string) : list string * list (address * string) :=
  match indexOf (fst acc) (fst kv) with
  | Some C => (fst acc, snd acc ++ [((R, C), snd kv)])
  | None => (fst acc ++ [fst kv], snd acc ++ [((R, length (fst acc)), snd kv)])
  end.

Fixpoint add_objects (R : nat) (js : list row_object)
    (acc : list string * list (address * string))
    : list string * list (address * string) :=
  match js with
  | [] => acc
  | o :: rest => add_objects (S R) rest (fold_left (add_key (S R)) o acc)
  end.

Definition header_cells (hdr : list string) : list (address * string) :=
  imap (fun C h => ((O, C), h)) hdr.

Definition json_to_sheet (js : list row_object) : worksheet :=
  let acc := add_objects O js ([], []) in
  {| cells := snd acc ++ header_cells (fst acc);
     ref_end := (length js, Nat.pred (length (fst acc))) |}.

Definition book_new : workbook := {| SheetNames := []; Sheets := [] |}.

Definition book_append_sheet (wb : workbook) (ws : worksheet) (name : string)
    : workbook :=
  {| SheetNames := SheetNames wb ++ [name];
     Sheets := Sheets wb ++ [(name, ws)] |}.

End XLSX.

(** ** src/pages/AdminDashboard.tsx *)

Inductive toast : Set :=
| ToastSuccess (message : string)
| ToastError (message : string).

(** An awaited request to the hosted backend: the promise resolves with an
    [error] that is null or not, or it rejects. *)
Inductive outcome : Set :=
| Resolved (error : option string)
| Rejected.

(** The requests the dashboard sends. *)
Inductive request : Set :=
| StorageRemove (bucket : string) (paths : list string)
| DbDelete (table id : string)
| DbUpdate (table id : string) (data : Partial.t).

Module AdminDashboard.

(** What a handler leaves behind: the requests it sent, the
    [registrations] state, and the notifications shown. *)
Record result : Set := mkResult {
  requests : list request;
  registrations : list Registration;
  toasts : list toast;
}.

(** [photoUrl.split("/").slice(-2).join("/")]. *)
Definition filePath (photoUrl : string) : string :=
  let urlParts := JS.split "/" photoUrl in
  JS.join "/" (JS.slice urlParts (-2) (Z.of_nat (length urlParts))).

Definition handleDelete (storage db : outcome)
    (prev : list Registration) (id photoUrl : string) : result :=
  let remove := StorageRemove "registration-photos" [filePath photoUrl] in
  let failed reqs :=
    {| requests := reqs; registrations := prev;
       toasts := [ToastError "Failed to delete registration"] |} in
  match storage with
  | Rejected => failed [remove]
  | Resolved _ =>
      let reqs := [remove; DbDelete "registrations" id] in
      match db with
      | Resolved None =>
          {| requests := reqs;
             registrations :=
               List.filter (fun r => negb (String.eqb (Registration.id r) id)) prev;
             toasts := [ToastSuccess "Registration deleted successfully"] |}
      | Resolved (Some _) | Rejected => failed reqs
      end
  end.

Definition handleUpdate (db : outcome)
    (prev : list Registration) (id : string) (data : Partial.t) : result :=
  let reqs := [DbUpdate "registrations" id data] in
  match db with
  | Resolved None =>
      {| requests := reqs;
         registrations :=
           map (fun r => if String.eqb (Registration.id r) id then spread r data else r)
               prev;
         toasts := [ToastSuccess "Registration updated successfully"] |}
  | Resolved (Some _) | Rejected =>
      {| requests := reqs; registrations := prev;
         toasts := [ToastError "Failed to update registration"] |}
  end.

Definition gender_string (g : gender_type) : string :=
  match g with male => "male" | female => "female" | other => "other" end.

Section ExportHandler.
(** [new Date(s).toLocaleDateString()] depends on the locale of the
    browser, [new Date().toISOString()] on the clock. *)
Variable toLocaleDateString : string -> string.
Variable now_iso : string.

Definition export_row (reg : Registration) : XLSX.row_object :=
  [ ("Name", Registration.full_name reg);
    ("Mobile", Registration.mobile_number reg);
    ("Email", Registration.email reg);
    ("Gender", gender_string (Registration.gender reg));
    ("Department", Registration.department reg);
    ("Address", Registration.address reg);
    ("Registered Date", toLocaleDateString (Registration.created_at reg)) ].

(** [handleExport]: the workbook written and the name of the file. *)
Definition handleExport (registrations : list Registration)
    : XLSX.workbook * string :=
  let exportData := map export_row registrations in
  let ws := XLSX.json_to_sheet exportData in
  let wb := XLSX.book_append_sheet XLSX.book_new ws "Registrations" in
  (wb, "registrations-"
         +:+ default "" (head (JS.split "T" now_iso)) +:+ ".xlsx").
End ExportHandler.

Section Stats.
(** [new Date(s).toDateString()], by the time zone of the browser, and its
    value for the present moment. *)
Variable toDateString : string -> string.
Variable today : string.

Definition todaySubmissions (registrations : list Registration) : nat :=
  length (List.filter
            (fun r => String.eqb (toDateString (Registration.created_at r)) today)
            registrations).
End Stats.

(** [new Set(registrations.map((r) => r.department)).size]. *)
Definition uniqueDepartments (registrations : list Registration) : nat :=
  size (list_to_set (C := gset string) (map Registration.department registrations)).

(** What the dashboard does with the session: the redirect of the first
    effect, the fetch of the second, and what is rendered. *)
Inductive rendered : Set := Spinner | Blank | Dashboard.

Definition redirects (user isAdmin authLoading : bool) : bool :=
  negb authLoading && (negb user || negb isAdmin).

Definition fetches (user isAdmin : bool) : bool := user && isAdmin.

Definition render (user isAdmin authLoading : bool) : rendered :=
  if authLoading then Spinner
  else if negb user || negb isAdmin then Blank
  else Dashboard.

End AdminDashboard.

(** ** src/components/admin/EditModal.tsx *)

Module EditModal.

(** [onSubmit]: the arguments of the [onSave] call, none when no
    registration is selected.  [data] is what the resolver of the schema
    hands over, the validated values of the form. *)
Definition onSubmit (registration : option Registration)
    (data : Validations.RegistrationFormData) : option (string * Partial.t) :=
  match registration with
  | None => None
  | Some reg =>
      Some (Registration.id reg,
            {| Partial.id := None;
               Partial.full_name := Some (Validations.fullName data);
               Partial.mobile_number := Some (Validations.mobileNumber_ data);
               Partial.email := Some (Validations.email data);
               Partial.gender := Some (Validations.gender data);
               Partial.department := Some (Validations.department data);
               Partial.address := Some (Validations.address data);
               Partial.photo_url := None;
               Partial.created_at := None;
               Partial.updated_at := None |})
  end.

(** A save from the modal: [onSave] is the dashboard's [handleUpdate]. *)
Definition save (db : outcome) (prev : list Registration)
    (registration : option Registration)
    (data : Validations.RegistrationFormData) : list Registration :=
  match onSubmit registration data with
  | None => prev
  | Some (id, patch) =>
      AdminDashboard.registrations (AdminDashboard.handleUpdate db prev id patch)
  end.

(** The values the form is filled with when a registration is selected:
    the [reset] of the effect. *)
Definition prefill (registration : Registration) : Validations.RegistrationFormData :=
  {| Validations.fullName := Registration.full_name registration;
     Validations.mobileNumber_ := Registration.mobile_number registration;
     Validations.email := Registration.email registration;
     Validations.gender := Registration.gender registration;
     Validations.department := Registration.department registration;
     Validations.address := Registration.address registration |}.

(** [handleSubmit(onSubmit)] with [zodResolver(registrationSchema)]: the
    values of the form go through the schema, and [onSubmit] runs on the
    parsed values only when every field passes. *)
Definition submit (email_ok : string -> bool) (db : outcome)
    (prev : list Registration) (registration : option Registration)
    (values : Validations.RegistrationFormData) : list Registration :=
  match Validations.registrationSchema email_ok values with
  | Some data => save db prev registration data
  | None => prev
  end.

End EditModal.

(** ** src/components/RegistrationForm.tsx: submission *)

Module Submission.

(** An awaited backend call of the form: it resolves without error,
    resolves with an error, or rejects; the last two carry the [message]
    of the error object. *)
Inductive response : Set :=
| Done
| Failure (message : string)
| Throws (message : string).

Inductive form_request : Set :=
| Upload (bucket path : string) (file : File.t)
| Insert (table : string) (row : Partial.t).

Record submit_result : Set := mkSubmit {
  requests : list form_request;
  isSubmitting : bool;
  isSuccess : bool;
  photoError_ : string;
  toasts : list toast;
}.

(** [error.message || "Failed to submit registration"]. *)
Definition catch_message (message : string) : string :=
  if String.eqb message "" then "Failed to submit registration" else message.

Section WithBackend.
(** [getPublicUrl(filePath).data.publicUrl] of the storage client. *)
Variable publicUrl : string -> string.
Variables now rnd : string.

Definition insert_row (data : Validations.RegistrationFormData)
    (photoUrl : string) : Partial.t :=
  {| Partial.id := None;
     Partial.full_name := Some (Validations.fullName data);
     Partial.mobile_number := Some (Validations.mobileNumber_ data);
     Partial.email := Some (Validations.email data);
     Partial.gender := Some (Validations.gender data);
     Partial.department := Some (Validations.department data);
     Partial.address := Some (Validations.address data);
     Partial.photo_url := Some photoUrl;
     Partial.created_at := None;
     Partial.updated_at := None |}.

(** [onSubmit] of the form, up to the end of its [finally] block; the
    form starts with [isSubmitting] and [isSuccess] false. *)
Definition onSubmit (upload insert : response)
    (photoFile : option File.t) (data : Validations.RegistrationFormData)
    : submit_result :=
  match photoFile, RegistrationForm.validatePhoto photoFile with
  | Some file, (true, err) =>
      let path := RegistrationForm.uploadPath now rnd file in
      let up := Upload "registration-photos" path file in
      let failed reqs message :=
        {| requests := reqs; isSubmitting := false; isSuccess := false;
           photoError_ := err; toasts := [ToastError message] |} in
      match upload with
      | Failure _ => failed [up] (catch_message "Failed to upload photo")
      | Throws m => failed [up] (catch_message m)
      | Done =>
          let reqs := [up; Insert "registrations" (insert_row data (publicUrl path))] in
          match insert with
          | Done =>
              {| requests := reqs; isSubmitting := false; isSuccess := true;
                 photoError_ := err;
                 toasts := [ToastSuccess "Registration submitted successfully!"] |}
          | Failure m | Throws m => failed reqs (catch_message m)
          end
      end
  | _, (_, err) =>
      {| requests := []; isSubmitting := false; isSuccess := false;
         photoError_ := err; toasts := [] |}
  end.
End WithBackend.

End Submission.

(** ** src/pages/AdminSignup.tsx *)

Module AdminSignup.

(** [LoginFormData]: the parsed output of [loginSchema]. *)
Record LoginFormData : Set := mkLogin {
  email : string;
  password : string;
}.

(** The answer of [supabase.auth.signUp]: an error, or the data with a
    user or without one; or the promise rejects. *)
Inductive signup_reply : Set :=
| SignUpError (message : string)
| SignedUp (user_id : option string)
| SignUpThrows.

Inductive request : Set :=
| SignUp (email password emailRedirectTo : string)
| InsertRole (user_id role : string).

Record result : Set := mkResult {
  requests : list request;
  toasts : list toast;
  navigated : option string;
  isLoading : bool;
}.

(** [onSubmit] up to the end of its [finally] block; [origin] is
    [window.location.origin]. *)
Definition onSubmit (origin : string) (signup : signup_reply) (role : outcome)
    (data : LoginFormData) : result :=
  let redirectUrl := origin +:+ "/admin" in
  let ask := SignUp (email data) (password data) redirectUrl in
  let finish reqs ts nav :=
    {| requests := reqs; toasts := ts; navigated := nav; isLoading := false |} in
  match signup with
  | SignUpThrows => finish [ask] [ToastError "An unexpected error occurred"] None
  | SignUpError message =>
      if JS.includes message "already registered"
      then finish [ask]
             [ToastError "This email is already registered. Please sign in."] None
      else finish [ask] [ToastError message] None
  | SignedUp None => finish [ask] [] None
  | SignedUp (Some uid) =>
      let reqs := [ask; InsertRole uid "admin"] in
      match role with
      | Resolved None =>
          finish reqs [ToastSuccess "Admin account created successfully!"]
                 (Some "/admin")
      | Resolved (Some _) =>
          finish reqs
                 [ToastError "Account created but failed to assign admin role"] None
      | Rejected => finish reqs [ToastError "An unexpected error occurred"] None
      end
  end.

End AdminSignup.

(** ** The dashboard and its table as one transition system *)

Module App.

Record state : Set := mkApp {
  registrations : list Registration;
  table : RegistrationsTable.state;
}.

Definition initial : state :=
  {| registrations := []; table := RegistrationsTable.initial |}.

(** The controls of the table that touch only the table's own state. *)
Inductive control : Set :=
| SearchChange (value : string)
| DepartmentChange (value : string)
| ClearFilters
| ClickPrevious
| ClickNext.

Inductive event : Set :=
| Control (c : control)
| Fetched (data : list Registration)
| Delete (id photoUrl : string) (storage db : outcome)
| Update (id : string) (data : Partial.t) (db : outcome).

Definition control_step (regs : list Registration)
    (t : RegistrationsTable.state) (c : control) : RegistrationsTable.state :=
  match c with
  | SearchChange v => RegistrationsTable.onSearchChange v t
  | DepartmentChange v => RegistrationsTable.onDepartmentChange v t
  | ClearFilters => RegistrationsTable.clearFilters t
  | ClickPrevious => RegistrationsTable.clickPrevious regs t
  | ClickNext => RegistrationsTable.clickNext regs t
  end.

Definition step (st : state) (ev : event) : state :=
  match ev with
  | Control c =>
      {| registrations := registrations st;
         table := control_step (registrations st) (table st) c |}
  | Fetched data => {| registrations := data; table := table st |}
  | Delete id photoUrl storage db =>
      {| registrations :=
           AdminDashboard.registrations
             (AdminDashboard.handleDelete storage db (registrations st) id photoUrl);
         table := table st |}
  | Update id data db =>
      {| registrations :=
           AdminDashboard.registrations
             (AdminDashboard.handleUpdate db (registrations st) id data);
         table := table st |}
  end.

Definition run (st : state) (evs : list event) : state := fold_left step evs st.

(** The confirm button of the delete dialog: [confirmDelete] of the table
    hands the stored pair to the dashboard's [handleDelete]. *)
Definition confirm_delete (storage db : outcome) (st : state) : state :=
  match RegistrationsTable.confirmDelete (table st) with
  | (Some (id, photoUrl), t) =>
      {| registrations :=
           AdminDashboard.registrations
             (AdminDashboard.handleDelete storage db (registrations st) id photoUrl);
         table := t |}
  | (None, t) => {| registrations := registrations st; table := t |}
  end.

(** The export button of the table calls the dashboard's [handleExport],
    which reads the dashboard's [registrations]. *)
Definition export (toLocaleDateString : string -> string) (now_iso : string)
    (st : state) : XLSX.workbook * string :=
  AdminDashboard.handleExport toLocaleDateString now_iso (registrations st).

Definition page (st : state) : Z := RegistrationsTable.currentPage (table st).

Definition pages (st : state) : Z :=
  RegistrationsTable.view_totalPages (registrations st) (table st).

End App.

(** ** Sample data *)

Definition sample (n : nat) : Registration :=
  {| Registration.id := String (ascii_of_nat (65 + n)) "";
     Registration.full_name := "Ann";
     Registration.mobile_number := "1234567890";
     Registration.email := "ann@example.org";
     Registration.gender := female;
     Registration.department := "Sales";
     Registration.address := "1 Main Street, Springfield";
     Registration.photo_url := "https://host/storage/registrations/p.png";
     Registration.created_at := "2024-01-01T00:00:00Z";
     Registration.updated_at := "2024-01-01T00:00:00Z" |}.

Definition samples (n : nat) : list Registration := map sample (seq 0 n).

Definition ann : Registration := sample 0.

Definition ben : Registration :=
  {| Registration.id := "b";
     Registration.full_name := "Ben";
     Registration.mobile_number := "5550001111";
     Registration.email := "ben@example.org";
     Registration.gender := male;
     Registration.department := "Engineering";
     Registration.address := "2 Main Street, Springfield";
     Registration.photo_url := "https://host/storage/registrations/q.png";
     Registration.created_at := "2024-01-02T00:00:00Z";
     Registration.updated_at := "2024-01-02T00:00:00Z" |}.

(** ** The properties, in the words of the specification *)

Module Spec.

(** [search] occurs in [s] as a contiguous run of code units. *)
Definition substring (search s : string) : Prop :=
  exists pre post : string, s = pre +:+ search +:+ post.

(** The same once both strings are lower-cased. *)
Definition ci_substring (search s : string) : Prop :=
  substring (JS.toLowerCase search) (JS.toLowerCase s).

(** The conjunctive predicate of the filtered view. *)
Definition matches (s d : string) (r : Registration) : Prop :=
  (ci_substring s (Registration.full_name r)
   \/ substring s (Registration.mobile_number r)
   \/ ci_substring s (Registration.email r))
  /\ (d = "all" \/ Registration.department r = d).

Definition ascii_digit (c : ascii) : Prop :=
  In c ["0"; "1"; "2"; "3"; "4"; "5"; "6"; "7"; "8"; "9"]%char.

(** Exactly ten characters, each an ASCII digit. *)
Definition ten_digits (s : string) : Prop :=
  String.length s = 10%nat
  /\ forall c, In c (list_ascii_of_string s) -> ascii_digit c.

(** Only white space. *)
Definition blank (s : string) : Prop :=
  forall c, In c (list_ascii_of_string s) -> JS.is_space c = true.

(** [t] is [s] without its leading and trailing white space. *)
Definition trimmed_of (s t : string) : Prop :=
  (exists pre post, s = pre +:+ t +:+ post /\ blank pre /\ blank post)
  /\ (forall c r, t = String c r -> JS.is_space c = false)
  /\ (forall r c, t = r +:+ String c "" -> JS.is_space c = false).

(** The photo rule: an accepted media type and at most 2 MiB. *)
Definition photo_ok (f : File.t) : Prop :=
  In (File.type f) ["image/jpeg"; "image/jpg"; "image/png"]
  /\ File.size f <= 2097152.

(** The record at a position of a list, positions counted from 1. *)
Definition record_at {A} (l : list A) (pos : Z) : option A :=
  if pos <? 1 then None else l !! Z.to_nat (pos - 1).

(** The export columns and the values of one record under them. *)
Definition export_header : list string :=
  [ "Name"; "Mobile"; "Email"; "Gender"; "Department"; "Address";
    "Registered Date" ].

Definition data_row (toLocaleDateString : string -> string)
    (r : Registration) : list string :=
  [ Registration.full_name r; Registration.mobile_number r;
    Registration.email r;
    AdminDashboard.gender_string (Registration.gender r);
    Registration.department r; Registration.address r;
    toLocaleDateString (Registration.created_at r) ].

(** The cells of sheet row [R] that hold [values] from column 0 on. *)
Definition row_cells (R : nat) (values : list string)
    : list (XLSX.address * string) :=
  imap (fun C v => ((R, C), v)) values.

(** One sheet row per record, in list order, from row [R] on. *)
Fixpoint data_cells (toLocaleDateString : string -> string) (R : nat)
    (regs : list Registration) : list (XLSX.address * string) :=
  match regs with
  | [] => []
  | r :: rest =>
      row_cells R (data_row toLocaleDateString r)
      ++ data_cells toLocaleDateString (S R) rest
  end.

(** The page index lies between 1 and the last page, where an empty view
    still has its page 1. *)
Definition page_in_range (st : App.state) : Prop :=
  1 <= App.page st <= Z.max 1 (App.pages st).

(** No path separator in a string. *)
Definition no_slash (s : string) : Prop :=
  ~ In "/"%char (list_ascii_of_string s).

(** The held photo, if any, obeys the photo rule. *)
Definition held_ok (st : RegistrationForm.state) : Prop :=
  match RegistrationForm.photoFile st with
  | Some f => photo_ok f
  | None => True
  end.

(** The identifiers of a record list, in order. *)
Definition ids (regs : list Registration) : list string :=
  map Registration.id regs.

(** The test of the delete handler's filter: another identifier. *)
Definition keeps (id : string) (r : Registration) : bool :=
  negb (String.eqb (Registration.id r) id).

(** The pages 1 to [total] of a filtered list, one after the other. *)
Definition all_pages (filtered : list Registration) : list (list Registration) :=
  map (fun i => RegistrationsTable.paginatedRegistrations filtered (Z.of_nat (S i)))
      (seq 0 (Z.to_nat (RegistrationsTable.totalPages filtered))).

End Spec.

(** * Proofs *)

(** ** Strings *)

Section Strings.

Lemma startsWith_spec (search s : string) :
  JS.startsWith s search = true <-> exists post, s = search +:+ post.
Proof.
  revert s; induction search as [|a search IH]; intros [|b s]; simpl.
  - split; [intros _; now exists "" | reflexivity].
  - split; [intros _; now exists (String b s) | reflexivity].
  - split; [discriminate | intros [post H]; discriminate].
  - rewrite andb_true_iff, IH, Ascii.eqb_eq. split.
    + intros [-> [post ->]]. now exists post.
    + intros [post H]. injection H as -> ->. eauto.
Qed.

Lemma includes_spec (search s : string) :
  JS.includes s search = true <-> Spec.substring search s.
Proof.
  unfold Spec.substring. induction s as [|c s IH].
  - cbn [JS.includes]. rewrite orb_false_r, startsWith_spec. split.
    + intros [post H]. now exists "", post.
    + intros [[|? pre] [post H]]; [now exists post | discriminate].
  - cbn [JS.includes]. rewrite orb_true_iff, startsWith_spec, IH. split.
    + intros [[post H] | [pre [post H]]].
      * now exists "", post.
      * exists (String c pre), post. simpl. now rewrite H.
    + intros [[|c' pre] [post H]].
      * left. now exists post.
      * right. simpl in H. injection H as -> ->. eauto.
Qed.

Lemma includes_empty (s : string) : JS.includes s "" = true.
Proof. destruct s; reflexivity. Qed.

Lemma matchesSearch_spec (s : string) (r : Registration) :
  RegistrationsTable.matchesSearch s r = true
  <-> Spec.ci_substring s (Registration.full_name r)
      \/ Spec.substring s (Registration.mobile_number r)
      \/ Spec.ci_substring s (Registration.email r).
Proof.
  unfold RegistrationsTable.matchesSearch, Spec.ci_substring.
  rewrite !orb_true_iff, !includes_spec. tauto.
Qed.

Lemma matchesDepartment_spec (d : string) (r : Registration) :
  RegistrationsTable.matchesDepartment d r = true
  <-> d = "all" \/ Registration.department r = d.
Proof.
  unfold RegistrationsTable.matchesDepartment.
  now rewrite orb_true_iff, !String.eqb_eq.
Qed.

Lemma matches_reflect (s d : string) (r : Registration) :
  RegistrationsTable.matchesSearch s r
    && RegistrationsTable.matchesDepartment d r = true
  <-> Spec.matches s d r.
Proof.
  unfold Spec.matches.
  now rewrite andb_true_iff, matchesSearch_spec, matchesDepartment_spec.
Qed.

End Strings.

#[export] Instance matches_dec (s d : string) (r : Registration) :
  Decision (Spec.matches s d r).
Proof.
  destruct (RegistrationsTable.matchesSearch s r
            && RegistrationsTable.matchesDepartment d r) eqn:E.
  - left. now apply matches_reflect.
  - right. intros H. apply matches_reflect in H. congruence.
Defined.

(** ** The filtered view *)

Lemma filteredRegistrations_filter (regs : list Registration) (s d : string) :
  RegistrationsTable.filteredRegistrations regs s d
  = filter (Spec.matches s d) regs.
Proof.
  unfold RegistrationsTable.filteredRegistrations.
  induction regs as [|r regs IH]; [reflexivity|].
  rewrite filter_cons. cbn [List.filter]. rewrite IH.
  destruct (decide (Spec.matches s d r)) as [H|H];
    destruct (RegistrationsTable.matchesSearch s r
              && RegistrationsTable.matchesDepartment d r) eqn:E;
    try reflexivity.
  - apply matches_reflect in H. congruence.
  - apply matches_reflect in E. contradiction.
Qed.

(** C1. The filtered view holds exactly the records that satisfy the search
    rule (the search text is a case-insensitive substring of the name, a
    substring of the phone, or a case-insensitive substring of the email)
    and the department rule (the selection is "all" or equals the record's
    department), each as often as it occurs in the fetched set and in the
    fetched order; on the records Ann (Sales) and Ben (Engineering) the
    search "an" keeps Ann only and the selection "Engineering" keeps Ben
    only. *)
Theorem C1_filtered_view (regs : list Registration) (s d : string) :
  let view := RegistrationsTable.filteredRegistrations regs s d in
  view = filter (Spec.matches s d) regs
  /\ (forall r, r ∈ view <-> r ∈ regs /\ Spec.matches s d r)
  /\ sublist view regs
  /\ RegistrationsTable.filteredRegistrations [ann; ben] "an" "all" = [ann]
  /\ RegistrationsTable.filteredRegistrations [ann; ben] "" "Engineering" = [ben].
Proof.
  cbv zeta. rewrite filteredRegistrations_filter.
  split; [reflexivity|]. split; [|split; [|split; reflexivity]].
  - intros r. rewrite list_elem_of_filter. tauto.
  - apply sublist_filter.
Qed.

(** C9. With the empty search text and the selection "all" the filtered
    view is the fetched record set itself, in the same order. *)
Theorem C9_no_filter_is_identity (regs : list Registration) :
  RegistrationsTable.filteredRegistrations regs "" "all" = regs.
Proof.
  unfold RegistrationsTable.filteredRegistrations.
  induction regs as [|r regs IH]; [reflexivity|].
  cbn [List.filter]. rewrite IH.
  unfold RegistrationsTable.matchesSearch, RegistrationsTable.matchesDepartment.
  cbn [JS.toLowerCase]. now rewrite !includes_empty.
Qed.

(** ** Trimming *)

Lemma blank_empty : Spec.blank "".
Proof. intros c []. Qed.

Lemma blank_cons (c : ascii) (s : string) :
  JS.is_space c = true -> Spec.blank s -> Spec.blank (String c s).
Proof. intros Hc Hs c' [<- | Hin]; auto. Qed.

Lemma trimStart_spec (s : string) :
  (exists pre, s = pre +:+ JS.trimStart s /\ Spec.blank pre)
  /\ (forall c r, JS.trimStart s = String c r -> JS.is_space c = false).
Proof.
  induction s as [|c s [[pre [Hs Hpre]] Hfirst]]; simpl.
  - split; [exists ""; split; [reflexivity | apply blank_empty] | discriminate].
  - destruct (JS.is_space c) eqn:Ec.
    + split; [|exact Hfirst].
      exists (String c pre). split; [|now apply blank_cons].
      change (String c s = String c (pre +:+ JS.trimStart s)). now f_equal.
    + split.
      * exists "". split; [reflexivity | apply blank_empty].
      * intros c' r E. now injection E as <- <-.
Qed.

Lemma trimEnd_spec (s : string) :
  (exists post, s = JS.trimEnd s +:+ post /\ Spec.blank post)
  /\ (forall r c, JS.trimEnd s = r +:+ String c "" -> JS.is_space c = false).
Proof.
  induction s as [|c s [[post [Hs Hpost]] Hlast]]; simpl.
  - split; [exists ""; split; [reflexivity | apply blank_empty]|].
    intros [|? ?] c E; discriminate E.
  - destruct (JS.trimEnd s) as [|d t] eqn:Et.
    + change (s = post) in Hs. subst post. destruct (JS.is_space c) eqn:Ec.
      * split; [exists (String c s); split; [reflexivity | now apply blank_cons]|].
        intros [|? ?] c' E; discriminate E.
      * split; [exists s; split; [reflexivity | exact Hpost]|].
        intros [|? [|? ?]] c' E; try discriminate E. now injection E as <-.
    + split; [exists post; split; [|exact Hpost]|].
      { change (String c s = String c (String d t +:+ post)). now f_equal. }
      intros [|c0 r] c' E; [discriminate E|].
      simpl in E. injection E as <- E. now apply (Hlast r c').
Qed.

Lemma trimEnd_first (c : ascii) (r : string) :
  JS.is_space c = false -> exists r', JS.trimEnd (String c r) = String c r'.
Proof.
  intros Hc. simpl. rewrite Hc. destruct (JS.trimEnd r); eauto.
Qed.

(** [trim] removes the leading and the trailing white space and nothing
    else. *)
Lemma trim_spec (s : string) : Spec.trimmed_of s (JS.trim s).
Proof.
  unfold Spec.trimmed_of, JS.trim.
  destruct (trimStart_spec s) as [[pre [Hs Hpre]] Hfirst].
  destruct (trimEnd_spec (JS.trimStart s)) as [[post [Ht Hpost]] Hlast].
  split; [|split].
  - exists pre, post. split; [|now split]. now rewrite <- Ht.
  - intros c r E. destruct (JS.trimStart s) as [|d u] eqn:Eu; [discriminate E|].
    pose proof (Hfirst d u eq_refl) as Hd.
    destruct (trimEnd_first d u Hd) as [r' Er']. rewrite Er' in E.
    now injection E as <- _.
  - exact Hlast.
Qed.

(** ** Validation of the mobile number *)

Lemma is_digit_spec (c : ascii) : JS.is_digit c = true <-> Spec.ascii_digit c.
Proof.
  destruct c as [[] [] [] [] [] [] [] []];
    (split; intros H;
     [ first [discriminate H | cbv; tauto]
     | first [reflexivity | cbv in H; intuition discriminate] ]).
Qed.

Lemma match_digits_spec (n : nat) (s : string) :
  Validations.match_digits n s = Some ""
  <-> String.length s = n
      /\ forall c, In c (list_ascii_of_string s) -> JS.is_digit c = true.
Proof.
  revert s; induction n as [|n IH]; intros [|c r]; simpl.
  - split; [intros _; split; [reflexivity | intros ? []] | reflexivity].
  - split; [discriminate | intros [H _]; discriminate].
  - split; [discriminate | intros [H _]; discriminate].
  - destruct (JS.is_digit c) eqn:Ec.
    + rewrite IH. split.
      * intros [Hl Hd]. split; [now rewrite Hl|].
        intros c' [<- | Hin]; auto.
      * intros [Hl Hd]. split; [now injection Hl | auto].
    + split; [discriminate|]. intros [_ Hd].
      rewrite (Hd c) in Ec; [discriminate | now left].
Qed.

Lemma regex_ten_digits_spec (s : string) :
  Validations.regex_ten_digits s = true <-> Spec.ten_digits s.
Proof.
  unfold Spec.ten_digits.
  transitivity (Validations.match_digits 10 s = Some "").
  - unfold Validations.regex_ten_digits.
    destruct (Validations.match_digits 10 s) as [[|c r]|];
      split; intros H; try reflexivity; discriminate.
  - rewrite match_digits_spec. split; intros [Hl Hd]; split; auto;
      intros c Hc; apply is_digit_spec; auto.
Qed.

(** C5. The mobile-number rule accepts a string exactly when its trimmed
    form consists of exactly ten ASCII digits, and the accepted value is the
    trimmed form; "1234567890" is accepted, "123456789", "12345678901" and
    "123-456-7890" are rejected. *)
Theorem C5_mobile_number (input : string) :
  (Validations.mobileNumber_accepts input = true
   <-> Spec.ten_digits (JS.trim input))
  /\ Validations.mobileNumber input
     = (if Validations.mobileNumber_accepts input
        then inl (JS.trim input)
        else inr "Mobile number must be exactly 10 digits")
  /\ Validations.mobileNumber_accepts "1234567890" = true
  /\ Validations.mobileNumber_accepts "123456789" = false
  /\ Validations.mobileNumber_accepts "12345678901" = false
  /\ Validations.mobileNumber_accepts "123-456-7890" = false.
Proof.
  split; [|split; [|repeat split]].
  - rewrite <- regex_ten_digits_spec.
    unfold Validations.mobileNumber_accepts, Validations.mobileNumber.
    destruct (Validations.regex_ten_digits (JS.trim input));
      split; intros H; try reflexivity; discriminate.
  - unfold Validations.mobileNumber_accepts, Validations.mobileNumber.
    now destruct (Validations.regex_ten_digits (JS.trim input)).
Qed.

(** ** The photo check *)

Lemma accepted_type_spec (ty : string) :
  JS.array_includes Validations.ACCEPTED_IMAGE_TYPES ty = true
  <-> In ty ["image/jpeg"; "image/jpg"; "image/png"].
Proof.
  unfold JS.array_includes, Validations.ACCEPTED_IMAGE_TYPES.
  cbn [existsb In]. rewrite !orb_true_iff, !String.eqb_eq.
  intuition congruence.
Qed.

Lemma photo_ok_reflect (f : File.t) :
  JS.array_includes Validations.ACCEPTED_IMAGE_TYPES (File.type f)
    && negb (File.size f >? Validations.MAX_FILE_SIZE) = true
  <-> Spec.photo_ok f.
Proof.
  unfold Spec.photo_ok.
  rewrite andb_true_iff, accepted_type_spec, negb_true_iff, Z.gtb_ltb, Z.ltb_ge.
  reflexivity.
Qed.

(** C4. The photo check accepts a file exactly when its declared media type
    is image/jpeg, image/jpg or image/png and its size is at most 2,097,152
    bytes; a file of exactly that size is accepted, a png of 1.9 MiB is
    accepted, a png of 2.1 MiB is rejected, a gif of any size is rejected. *)
Theorem C4_photo_check (f : File.t) :
  (fst (RegistrationForm.validatePhoto (Some f)) = true <-> Spec.photo_ok f)
  /\ Validations.MAX_FILE_SIZE = 2097152
  /\ (forall name,
        RegistrationForm.validatePhoto
          (Some (File.mk name "image/jpeg" 2097152)) = (true, ""))
  /\ (forall name,
        RegistrationForm.validatePhoto
          (Some (File.mk name "image/png" 1992294)) = (true, ""))
  /\ (forall name,
        RegistrationForm.validatePhoto (Some (File.mk name "image/png" 2202010))
        = (false, "File size must be less than 2MB"))
  /\ (forall name size,
        RegistrationForm.validatePhoto (Some (File.mk name "image/gif" size))
        = (false, "Only JPG and PNG files are allowed")).
Proof.
  split; [|repeat split].
  rewrite <- photo_ok_reflect. unfold RegistrationForm.validatePhoto.
  destruct (JS.array_includes _ _), (File.size f >? _);
    cbn; split; intros H; try reflexivity; discriminate.
Qed.

(** ** Pagination *)

Lemma ceil_div_10 (n : Z) : JS.ceil_div n 10 = - ((- n) / 10).
Proof.
  unfold JS.ceil_div, Qround.Qceiling, Qround.Qfloor. cbn.
  now rewrite Z.mul_1_r.
Qed.

(** [totalPages] is the least number of pages of ten that hold the view. *)
Lemma totalPages_ceil (filtered : list Registration) :
  let n := Z.of_nat (length filtered) in
  let total := RegistrationsTable.totalPages filtered in
  10 * (total - 1) < n <= 10 * total.
Proof.
  cbv zeta. unfold RegistrationsTable.totalPages, RegistrationsTable.ITEMS_PER_PAGE.
  rewrite ceil_div_10. Z.to_euclidean_division_equations. lia.
Qed.

Lemma paginated_take_drop (filtered : list Registration) (p : Z) :
  1 <= p ->
  RegistrationsTable.paginatedRegistrations filtered p
  = take 10 (drop (Z.to_nat ((p - 1) * 10)) filtered).
Proof.
  intros Hp.
  unfold RegistrationsTable.paginatedRegistrations, RegistrationsTable.startIndex,
    RegistrationsTable.ITEMS_PER_PAGE, JS.slice, JS.slice_index.
  destruct (Z.ltb_spec ((p - 1) * 10) 0) as [H|_]; [lia|].
  destruct (Z.ltb_spec ((p - 1) * 10 + 10) 0) as [H|_]; [lia|].
  set (n := Z.of_nat (length filtered)).
  destruct (Z.le_gt_cases n ((p - 1) * 10)) as [Hle|Hgt].
  - rewrite !drop_ge by lia. now rewrite !take_nil.
  - rewrite (Z.min_l ((p - 1) * 10) n) by lia.
    destruct (Z.le_gt_cases ((p - 1) * 10 + 10) n) as [Hfull|Hpart].
    + f_equal. lia.
    + rewrite Z.min_r by lia.
      rewrite !take_ge; [reflexivity | |]; rewrite length_drop; lia.
Qed.

(** C3. The number of pages is the ceiling of a tenth of the length of the
    filtered list, and page [p] (a page index, so at least 1) shows exactly
    the filtered records at positions (p-1)*10+1 through min(p*10, n),
    counted from 1, in that order; 25 records give 3 pages and page 3 shows
    records 21 through 25. *)
Theorem C3_pagination (filtered : list Registration) (p : Z) (Hp : 1 <= p) :
  let n := Z.of_nat (length filtered) in
  let total := RegistrationsTable.totalPages filtered in
  let shown := RegistrationsTable.paginatedRegistrations filtered p in
  let first := (p - 1) * 10 + 1 in
  let last := Z.min (p * 10) n in
  10 * (total - 1) < n <= 10 * total
  /\ Z.of_nat (length shown) = Z.max 0 (last - first + 1)
  /\ (forall pos, first <= pos <= last ->
        is_Some (Spec.record_at filtered pos)
        /\ shown !! Z.to_nat (pos - first) = Spec.record_at filtered pos)
  /\ RegistrationsTable.totalPages (samples 25) = 3
  /\ RegistrationsTable.paginatedRegistrations (samples 25) 3
     = map sample (seq 20 5).
Proof.
  cbv zeta. split; [apply totalPages_ceil|].
  rewrite paginated_take_drop by exact Hp.
  split; [|split; [|split; reflexivity]].
  - rewrite length_take, length_drop. lia.
  - intros pos [Hlo Hhi]. unfold Spec.record_at.
    destruct (Z.ltb_spec pos 1) as [H|_]; [lia|]. split.
    + apply lookup_lt_is_Some. lia.
    + rewrite lookup_take_lt by lia. rewrite lookup_drop. f_equal. lia.
Qed.

Lemma C3_pagination_witness :
  1 <= 3
  /\ Z.of_nat (length (RegistrationsTable.paginatedRegistrations (samples 25) 3))
     = 5.
Proof.
  assert (H : 1 <= 3) by lia.
  split; [exact H|].
  exact (proj1 (proj2 (C3_pagination (samples 25) 3 H))).
Defined.

(** ** The page index *)

Lemma run_invariant (P : App.state -> Prop) (evs : list App.event) :
  (forall st ev, In ev evs -> P st -> P (App.step st ev)) ->
  forall st, P st -> P (App.run st evs).
Proof.
  unfold App.run. induction evs as [|ev evs IH]; intros Hstep st Hst.
  - exact Hst.
  - simpl. apply IH.
    + intros st' ev' Hin. apply Hstep. now right.
    + apply Hstep; [now left | exact Hst].
Qed.

Lemma step_page_lower (st : App.state) (ev : App.event) :
  1 <= App.page st -> 1 <= App.page (App.step st ev).
Proof.
  unfold App.page. intros Hst.
  destruct ev as [[v|v| | |] | data | id url storage db | id data db];
    cbn; try lia; try exact Hst.
  - unfold RegistrationsTable.clickPrevious.
    destruct (_ && _); cbn; [unfold RegistrationsTable.prev_updater; lia | exact Hst].
  - unfold RegistrationsTable.clickNext.
    destruct (Z.gtb_spec
                (RegistrationsTable.view_totalPages (App.registrations st) (App.table st)) 1);
      cbn; [|exact Hst].
    destruct (negb _); cbn; [unfold RegistrationsTable.next_updater; lia | exact Hst].
Qed.

Lemma control_page_in_range (st : App.state) (c : App.control) :
  Spec.page_in_range st -> Spec.page_in_range (App.step st (App.Control c)).
Proof.
  unfold Spec.page_in_range, App.page, App.pages. intros Hst.
  destruct c as [v|v| | |]; cbn; try lia.
  - unfold RegistrationsTable.clickPrevious.
    destruct (_ && _); cbn; [|exact Hst].
    unfold RegistrationsTable.prev_updater.
    change (RegistrationsTable.view_totalPages (App.registrations st)
              (RegistrationsTable.setCurrentPage _ (App.table st)))
      with (RegistrationsTable.view_totalPages (App.registrations st) (App.table st)).
    lia.
  - unfold RegistrationsTable.clickNext.
    destruct (Z.gtb_spec
                (RegistrationsTable.view_totalPages (App.registrations st) (App.table st)) 1);
      cbn; [|exact Hst].
    destruct (negb _); cbn; [|exact Hst].
    unfold RegistrationsTable.next_updater.
    change (RegistrationsTable.view_totalPages (App.registrations st)
              (RegistrationsTable.setCurrentPage _ (App.table st)))
      with (RegistrationsTable.view_totalPages (App.registrations st) (App.table st)).
    lia.
Qed.

Lemma controls_page_in_range (cs : list App.control) (st : App.state) :
  Spec.page_in_range st ->
  Spec.page_in_range (App.run st (map App.Control cs)).
Proof.
  apply run_invariant. intros st' ev Hin Hst'.
  apply in_map_iff in Hin as [c [<- _]]. now apply control_page_in_range.
Qed.

Lemma reset_page_in_range (st : App.state) (c : App.control) :
  App.page (App.step st (App.Control c)) = 1 ->
  Spec.page_in_range (App.step st (App.Control c)).
Proof. unfold Spec.page_in_range. intros ->. lia. Qed.

(** C2, as the code has it.  In every reachable state the page index is at
    least 1.  From a fresh table over any record set, and from any state
    once the search text or the department selection has been changed or
    the filters cleared, every sequence of table controls (search,
    department, clear, previous, next) keeps the page index between 1 and
    the last page of the current filtered view, an empty view counting as
    one page.  A change of the search text or of the department selection
    puts the index at 1; the previous and next updaters clamp to 1 and to
    the last page (page 0 becomes 1, page 4 of 3 becomes 3). *)
Theorem C2_page_index_bounds :
  (forall evs, 1 <= App.page (App.run App.initial evs))
  /\ (forall regs cs,
        Spec.page_in_range
          (App.run (App.mkApp regs RegistrationsTable.initial)
                   (map App.Control cs)))
  /\ (forall st v cs,
        Spec.page_in_range
          (App.run st (map App.Control (App.SearchChange v :: cs)))
        /\ Spec.page_in_range
             (App.run st (map App.Control (App.DepartmentChange v :: cs)))
        /\ Spec.page_in_range
             (App.run st (map App.Control (App.ClearFilters :: cs))))
  /\ (forall st v,
        App.page (App.step st (App.Control (App.SearchChange v))) = 1
        /\ App.page (App.step st (App.Control (App.DepartmentChange v))) = 1)
  /\ (forall p, 1 <= RegistrationsTable.prev_updater p)
  /\ (forall total p, RegistrationsTable.next_updater total p <= total)
  /\ RegistrationsTable.prev_updater 1 = 1
  /\ RegistrationsTable.next_updater (RegistrationsTable.totalPages (samples 25)) 3
     = 3.
Proof.
  split; [|split; [|split; [|split; [|split; [|split; [|split]]]]]].
  - intros evs. apply (run_invariant (fun st => 1 <= App.page st)).
    + intros st ev _. apply step_page_lower.
    + reflexivity.
  - intros regs cs. apply controls_page_in_range.
    unfold Spec.page_in_range. cbn. lia.
  - intros st v cs.
    repeat split; cbn [map App.run fold_left];
      apply (controls_page_in_range cs), reset_page_in_range; reflexivity.
  - intros st v. split; reflexivity.
  - intros p. unfold RegistrationsTable.prev_updater. lia.
  - intros total p. unfold RegistrationsTable.next_updater. lia.
  - reflexivity.
  - reflexivity.
Qed.

(** C2 as stated fails.  Before any record is fetched the view is empty:
    the page index is 1 and the number of pages is 0.  With eleven records
    fetched, a click on next and the deletion of the eleventh record leave
    the page index at 2 while the view has one page; that page 2 shows no
    record. *)
Lemma C2_page_above_last_page :
  let st :=
    App.run App.initial
      [ App.Fetched (samples 11);
        App.Control App.ClickNext;
        App.Delete "K" (Registration.photo_url (sample 10))
                   (Resolved None) (Resolved None) ] in
  (App.page App.initial = 1 /\ App.pages App.initial = 0)
  /\ App.page st = 2 /\ App.pages st = 1
  /\ RegistrationsTable.view_page (App.registrations st) (App.table st) = []
  /\ ~ (1 <= App.page st <= App.pages st).
Proof.
  cbv zeta.
  set (st := App.run _ _).
  assert (Hp : App.page st = 2) by (vm_compute; reflexivity).
  assert (Ht : App.pages st = 1) by (vm_compute; reflexivity).
  split; [split; vm_compute; reflexivity|].
  split; [exact Hp|]. split; [exact Ht|].
  split; [vm_compute; reflexivity|].
  rewrite Hp, Ht. lia.
Qed.

(** ** Delete *)

(** The stored-object path is the last two segments of the photo URL. *)
Example filePath_last_two_segments :
  AdminDashboard.filePath
    "https://host/storage/v1/object/public/registration-photos/registrations/17-ab.png"
  = "registrations/17-ab.png".
Proof. reflexivity. Qed.

(** C6, as the code has it.  Whatever became of the photo removal, when
    the row deletion reports
    failure (it resolves with an error or it rejects) the operation is
    reported as failed and the in-memory record set is the one before; the
    removal request for the photo had been sent.  This holds for every
    identifier, also one that matches no record. *)
Theorem C6_delete_failure (storage db : outcome) (prev : list Registration)
    (id photoUrl : string) (Hdb : db <> Resolved None) :
  let r := AdminDashboard.handleDelete storage db prev id photoUrl in
  AdminDashboard.registrations r = prev
  /\ AdminDashboard.toasts r = [ToastError "Failed to delete registration"]
  /\ In (StorageRemove "registration-photos" [AdminDashboard.filePath photoUrl])
        (AdminDashboard.requests r)
  /\ (forall st,
        App.registrations (App.step st (App.Delete id photoUrl storage db))
        = App.registrations st)
  /\ (forall st,
        App.registrations (App.confirm_delete storage db st)
        = App.registrations st).
Proof.
  cbv zeta.
  assert (Hreg : forall l,
             forall id' url',
             AdminDashboard.registrations
               (AdminDashboard.handleDelete storage db l id' url') = l).
  { intros l id' url'. destruct storage, db as [[e|]|]; try reflexivity. congruence. }
  split; [apply Hreg|]. split; [|split; [|split]].
  - destruct storage, db as [[e|]|]; try reflexivity. congruence.
  - destruct storage, db as [[e|]|]; cbn; auto.
  - intros st. cbn. apply Hreg.
  - intros st. unfold App.confirm_delete, RegistrationsTable.confirmDelete.
    destruct (RegistrationsTable.deleteId (App.table st)) as [i|]; [|reflexivity].
    destruct (String.eqb i ""); [reflexivity|]. cbn. apply Hreg.
Qed.

Lemma C6_delete_failure_witness :
  Resolved (Some "no matching row") <> Resolved None
  /\ AdminDashboard.registrations
       (AdminDashboard.handleDelete (Resolved None)
          (Resolved (Some "no matching row")) [ben] "gone"
          "https://host/storage/registrations/p.png")
     = [ben].
Proof.
  assert (H : Resolved (Some "no matching row") <> Resolved None)
    by discriminate.
  split; [exact H|].
  exact (proj1 (C6_delete_failure (Resolved None)
                  (Resolved (Some "no matching row")) [ben] "gone"
                  "https://host/storage/registrations/p.png" H)).
Defined.

(** C6 as stated fails for an identifier that matches no row: the handler
    reads only the error of the reply and never asks whether a row matched,
    so on an error-free reply the operation is reported as successful (the
    record set stays as it was). *)
Lemma C6_missing_row_reported_success :
  let r := AdminDashboard.handleDelete (Resolved None) (Resolved None) [ben]
             "gone" "https://host/storage/registrations/p.png" in
  ~ In "gone" (Spec.ids [ben])
  /\ AdminDashboard.toasts r = [ToastSuccess "Registration deleted successfully"]
  /\ AdminDashboard.registrations r = [ben]
  /\ AdminDashboard.toasts r <> [ToastError "Failed to delete registration"].
Proof.
  cbv zeta. split; [intros [H|[]]; discriminate H|].
  split; [reflexivity|]. split; [reflexivity | discriminate].
Qed.

(** ** Edit *)

(** C7. After a successful save from the edit form the in-memory list has
    the same length; a record whose identifier differs from the edited one
    is unchanged; a record with the edited identifier keeps its identifier,
    photo URL, creation and update timestamps and takes the six form values
    (name, mobile number, email, gender, department, address).  The update
    request carries those six fields and no other. *)
Theorem C7_edit_save_frame (prev : list Registration) (reg : Registration)
    (data : Validations.RegistrationFormData) :
  let id := Registration.id reg in
  let new := EditModal.save (Resolved None) prev (Some reg) data in
  length new = length prev
  /\ (forall i r, prev !! i = Some r ->
        (Registration.id r <> id -> new !! i = Some r)
        /\ (Registration.id r = id ->
            new !! i
            = Some {| Registration.id := Registration.id r;
                      Registration.full_name := Validations.fullName data;
                      Registration.mobile_number := Validations.mobileNumber_ data;
                      Registration.email := Validations.email data;
                      Registration.gender := Validations.gender data;
                      Registration.department := Validations.department data;
                      Registration.address := Validations.address data;
                      Registration.photo_url := Registration.photo_url r;
                      Registration.created_at := Registration.created_at r;
                      Registration.updated_at := Registration.updated_at r |}))
  /\ (exists patch,
        EditModal.onSubmit (Some reg) data = Some (id, patch)
        /\ Partial.id patch = None /\ Partial.photo_url patch = None
        /\ Partial.created_at patch = None /\ Partial.updated_at patch = None).
Proof.
  cbv zeta. unfold EditModal.save. cbn.
  split; [apply length_map|]. split.
  - intros i r Hi.
    match goal with |- context [map ?f prev] => change (map f prev) with (f <$> prev) end.
    rewrite list_lookup_fmap, Hi. cbn.
    destruct (String.eqb_spec (Registration.id r) (Registration.id reg)) as [E|E];
      split; intros H; try reflexivity; contradiction.
  - eexists. repeat split.
Qed.

(** ** Export *)

Section ExportProofs.
Variable toLocaleDateString : string -> string.

Lemma add_keys_first (R : nat) (r : Registration) (cs : list (XLSX.address * string)) :
  fold_left (XLSX.add_key R) (AdminDashboard.export_row toLocaleDateString r) ([], cs)
  = (Spec.export_header,
     cs ++ Spec.row_cells R (Spec.data_row toLocaleDateString r)).
Proof. cbn. now rewrite <- !app_assoc. Qed.

Lemma add_keys_next (R : nat) (r : Registration) (cs : list (XLSX.address * string)) :
  fold_left (XLSX.add_key R) (AdminDashboard.export_row toLocaleDateString r)
            (Spec.export_header, cs)
  = (Spec.export_header,
     cs ++ Spec.row_cells R (Spec.data_row toLocaleDateString r)).
Proof. cbn. now rewrite <- !app_assoc. Qed.

Lemma add_objects_export (regs : list Registration) :
  forall (R : nat) (cs : list (XLSX.address * string)),
    XLSX.add_objects R (map (AdminDashboard.export_row toLocaleDateString) regs)
                     (Spec.export_header, cs)
    = (Spec.export_header,
       cs ++ Spec.data_cells toLocaleDateString (S R) regs).
Proof.
  induction regs as [|r regs IH]; intros R cs.
  - cbn. now rewrite app_nil_r.
  - cbn [map XLSX.add_objects]. rewrite add_keys_next, IH.
    cbn [Spec.data_cells]. now rewrite <- app_assoc.
Qed.

Lemma json_to_sheet_export (regs : list Registration) :
  XLSX.json_to_sheet (map (AdminDashboard.export_row toLocaleDateString) regs)
  = match regs with
    | [] => {| XLSX.cells := []; XLSX.ref_end := (O, O) |}
    | _ :: _ =>
        {| XLSX.cells :=
             Spec.data_cells toLocaleDateString 1 regs
             ++ Spec.row_cells 0 Spec.export_header;
           XLSX.ref_end := (length regs, 6%nat) |}
    end.
Proof.
  destruct regs as [|r regs]; [reflexivity|].
  unfold XLSX.json_to_sheet. cbn [map XLSX.add_objects].
  rewrite add_keys_first, add_objects_export. cbn [fst snd app length].
  now rewrite length_map.
Qed.

End ExportProofs.

(** C8, as the code has it.  The export is a workbook with the single sheet
    "Registrations".  For an empty in-memory record set that sheet has no
    cell at all, so no header row either: the column names reach the sheet
    only as the keys of the exported row objects.  For a non-empty set the
    sheet has the header row (Name, Mobile, Email, Gender, Department,
    Address, Registered Date) in row 0 and one data row per record of the
    full in-memory set, in list order, whatever the search text, the
    department selection and the page of the table are. *)
Theorem C8_export (toLocaleDateString : string -> string) (now_iso : string)
    (st : App.state) :
  let regs := App.registrations st in
  let wb := fst (App.export toLocaleDateString now_iso st) in
  XLSX.SheetNames wb = ["Registrations"]
  /\ XLSX.Sheets wb
     = [("Registrations",
         match regs with
         | [] => {| XLSX.cells := []; XLSX.ref_end := (O, O) |}
         | _ :: _ =>
             {| XLSX.cells :=
                  Spec.data_cells toLocaleDateString 1 regs
                  ++ Spec.row_cells 0 Spec.export_header;
                XLSX.ref_end := (length regs, 6%nat) |}
         end)].
Proof.
  cbv zeta. unfold App.export, AdminDashboard.handleExport. cbn [fst].
  unfold XLSX.book_append_sheet, XLSX.book_new. cbn [XLSX.SheetNames XLSX.Sheets app].
  now rewrite json_to_sheet_export.
Qed.

(** C8 as stated fails on the empty record set: the exported sheet has no
    cell, while a sheet with the header row has the seven header cells. *)
Lemma C8_empty_export_has_no_header_row :
  let wb :=
    fst (App.export (fun s => s) "2024-05-06T10:00:00.000Z" App.initial) in
  XLSX.Sheets wb
  = [("Registrations", {| XLSX.cells := []; XLSX.ref_end := (O, O) |})]
  /\ ~ (exists ws,
          In ("Registrations", ws) (XLSX.Sheets wb)
          /\ XLSX.cells ws = Spec.row_cells 0 Spec.export_header).
Proof.
  cbv zeta. split; [reflexivity|].
  intros [ws [[Hin | []] Hcells]].
  injection Hin as <-. discriminate Hcells.
Qed.

(** ** Selecting a photo *)

Lemma handleFileChange_rejects (f : File.t) :
  ~ In (File.type f) ["image/jpeg"; "image/jpg"; "image/png"]
  \/ File.size f > 2097152 ->
  FileUpload.handleFileChange (Some f) = [].
Proof.
  intros H. unfold FileUpload.handleFileChange.
  destruct (JS.array_includes _ _) eqn:Et; [|reflexivity]. cbn.
  destruct (Z.gtb_spec (File.size f) Validations.MAX_FILE_SIZE) as [|Hs];
    [reflexivity|].
  apply accepted_type_spec in Et. change Validations.MAX_FILE_SIZE with 2097152 in Hs.
  destruct H as [H|H]; [contradiction | lia].
Qed.

(** C10. Given a file whose declared media type is not image/jpeg, image/jpg
    or image/png, or whose size exceeds 2 MiB, the change handler does
    nothing: no [onChange], no preview update, so the held file, the preview
    and the error text stay as they were.  For every input the error text
    is left alone, [onChange(null)] and a preview reset happen only for the
    null input, and the null input clears both the held file and the
    preview. *)
Theorem C10_rejected_selection (f : File.t)
    (H : ~ In (File.type f) ["image/jpeg"; "image/jpg"; "image/png"]
         \/ File.size f > 2097152) :
  FileUpload.handleFileChange (Some f) = []
  /\ (forall reader st, RegistrationForm.select reader st (Some f) = st)
  /\ (forall reader st file,
        RegistrationForm.photoError (RegistrationForm.select reader st file)
        = RegistrationForm.photoError st)
  /\ (forall file,
        In (FileUpload.OnChange None) (FileUpload.handleFileChange file)
        <-> file = None)
  /\ (forall file p,
        In (FileUpload.SetPreview p) (FileUpload.handleFileChange file)
        <-> file = None /\ p = None)
  /\ (forall reader st,
        RegistrationForm.select reader st None
        = {| RegistrationForm.photoFile := None;
             RegistrationForm.photoError := RegistrationForm.photoError st;
             RegistrationForm.preview := None |}).
Proof.
  pose proof (handleFileChange_rejects f H) as Hrej.
  split; [exact Hrej|]. split; [|split; [|split; [|split]]].
  - intros reader st. unfold RegistrationForm.select. now rewrite Hrej.
  - intros reader st [g|]; unfold RegistrationForm.select, FileUpload.handleFileChange;
      [|reflexivity].
    destruct (negb _); [reflexivity|]. destruct (_ >? _); reflexivity.
  - intros [g|]; unfold FileUpload.handleFileChange.
    + destruct (negb _); [|destruct (_ >? _)]; cbn; split; intros H';
        try discriminate; intuition discriminate.
    + cbn. intuition.
  - intros [g|] p; unfold FileUpload.handleFileChange.
    + destruct (negb _); [|destruct (_ >? _)]; cbn; split; intros H';
        try (destruct H'; discriminate); intuition discriminate.
    + cbn. split.
      * intros [H'|[H'|[]]]; [injection H' as <-; auto | discriminate].
      * intros [_ ->]. now left.
  - reflexivity.
Qed.

Lemma C10_rejected_selection_witness :
  (~ In "image/gif" ["image/jpeg"; "image/jpg"; "image/png"] \/ 100 > 2097152)
  /\ FileUpload.handleFileChange (Some (File.mk "a.gif" "image/gif" 100)) = [].
Proof.
  assert (H : ~ In "image/gif" ["image/jpeg"; "image/jpg"; "image/png"]
              \/ 100 > 2097152).
  { left. intros [E|[E|[E|[]]]]; discriminate E. }
  split; [exact H|].
  exact (proj1 (C10_rejected_selection (File.mk "a.gif" "image/gif" 100) H)).
Defined.

(** * Further properties of the code *)

(** ** Validation rules of the other text fields *)

Lemma trimStart_fixed (s : string) :
  (forall c r, s = String c r -> JS.is_space c = false) -> JS.trimStart s = s.
Proof.
  destruct s as [|c r]; [reflexivity|]. intros H. simpl.
  now rewrite (H c r eq_refl).
Qed.

Lemma trimEnd_fixed (s : string) :
  (forall r c, s = r +:+ String c "" -> JS.is_space c = false) -> JS.trimEnd s = s.
Proof.
  induction s as [|c s IH]; [reflexivity|]. intros H. simpl.
  rewrite IH.
  - destruct s as [|d t]; [|reflexivity].
    now rewrite (H "" c eq_refl).
  - intros r c' E. apply (H (String c r) c'). rewrite E. reflexivity.
Qed.

Lemma trim_idempotent (s : string) : JS.trim (JS.trim s) = JS.trim s.
Proof.
  destruct (trim_spec s) as (_ & Hfirst & Hlast).
  unfold JS.trim at 1. rewrite trimStart_fixed by exact Hfirst.
  now apply trimEnd_fixed.
Qed.

Lemma trim_blank (s : string) : Spec.blank s -> JS.trim s = "".
Proof.
  unfold JS.trim. induction s as [|c s IH]; [reflexivity|]. intros H. simpl.
  rewrite (H c) by now left. apply IH. intros c' Hc'. apply H. now right.
Qed.

Lemma trimmed_length_rule_inl (lo hi : nat) (m_lo m_hi input v : string) :
  Validations.trimmed_length_rule lo hi m_lo m_hi input = inl v
  <-> v = JS.trim input /\ (lo <= String.length v <= hi)%nat.
Proof.
  unfold Validations.trimmed_length_rule.
  destruct (Nat.ltb_spec (String.length (JS.trim input)) lo);
    [|destruct (Nat.ltb_spec hi (String.length (JS.trim input)))].
  - split; [discriminate | intros [-> ?]; lia].
  - split; [discriminate | intros [-> ?]; lia].
  - split; [intros E; injection E as <-; split; [reflexivity | lia]
           | now intros [-> _]].
Qed.

(** X1. The full name is accepted exactly when its trimmed form has 2 to 100
    characters and the address exactly when its trimmed form has 10 to 500,
    both bounds included; the accepted value is the trimmed form; a shorter
    value gets the "at least" message, a longer one the "less than"
    message. *)
Theorem name_and_address_rules (input : string) :
  let n := String.length (JS.trim input) in
  (forall v, Validations.check_fullName input = inl v
             <-> v = JS.trim input /\ (2 <= n <= 100)%nat)
  /\ (forall v, Validations.check_address input = inl v
                <-> v = JS.trim input /\ (10 <= n <= 500)%nat)
  /\ (forall m, Validations.check_fullName input = inr m ->
        ((n < 2)%nat /\ m = "Full name must be at least 2 characters")
        \/ ((100 < n)%nat /\ m = "Full name must be less than 100 characters"))
  /\ (forall m, Validations.check_address input = inr m ->
        ((n < 10)%nat /\ m = "Address must be at least 10 characters")
        \/ ((500 < n)%nat /\ m = "Address must be less than 500 characters")).
Proof.
  cbv zeta. split; [|split; [|split]].
  - intros v. unfold Validations.check_fullName.
    rewrite trimmed_length_rule_inl. split; intros [-> H]; now split.
  - intros v. unfold Validations.check_address.
    rewrite trimmed_length_rule_inl. split; intros [-> H]; now split.
  - intros m. unfold Validations.check_fullName, Validations.trimmed_length_rule.
    destruct (Nat.ltb_spec (String.length (JS.trim input)) 2);
      [|destruct (Nat.ltb_spec 100 (String.length (JS.trim input)))];
      intros E; try discriminate E; injection E as <-; auto.
  - intros m. unfold Validations.check_address, Validations.trimmed_length_rule.
    destruct (Nat.ltb_spec (String.length (JS.trim input)) 10);
      [|destruct (Nat.ltb_spec 500 (String.length (JS.trim input)))];
      intros E; try discriminate E; injection E as <-; auto.
Qed.

(** X2. A value that a trimming rule has accepted is accepted again and comes
    back unchanged: the name, the mobile number and the address of a stored
    record pass the edit form as they are. *)
Theorem accepted_values_revalidate (input v : string) :
  (Validations.check_fullName input = inl v ->
   Validations.check_fullName v = inl v)
  /\ (Validations.check_address input = inl v ->
      Validations.check_address v = inl v)
  /\ (Validations.mobileNumber input = inl v ->
      Validations.mobileNumber v = inl v).
Proof.
  split; [|split].
  - unfold Validations.check_fullName. rewrite !trimmed_length_rule_inl.
    intros [-> H]. now rewrite trim_idempotent.
  - unfold Validations.check_address. rewrite !trimmed_length_rule_inl.
    intros [-> H]. now rewrite trim_idempotent.
  - unfold Validations.mobileNumber.
    destruct (Validations.regex_ten_digits (JS.trim input)) eqn:E;
      [|discriminate]. intros H. injection H as <-.
    now rewrite trim_idempotent, E.
Qed.

(** X3. An input of white space only is rejected by the three trimming rules,
    while the department rule and the password rule, which do not trim,
    accept it once it is long enough. *)
Theorem blank_input (input : string) (Hblank : Spec.blank input) :
  Validations.check_fullName input
  = inr "Full name must be at least 2 characters"
  /\ Validations.check_address input
     = inr "Address must be at least 10 characters"
  /\ Validations.mobileNumber input
     = inr "Mobile number must be exactly 10 digits"
  /\ ((1 <= String.length input)%nat ->
      Validations.check_department input = inl input)
  /\ ((6 <= String.length input <= 100)%nat ->
      Validations.check_password input = inl input).
Proof.
  unfold Validations.check_fullName, Validations.check_address,
    Validations.trimmed_length_rule, Validations.mobileNumber.
  rewrite (trim_blank input Hblank).
  split; [reflexivity|]. split; [reflexivity|]. split; [reflexivity|]. split.
  - intros H. unfold Validations.check_department.
    destruct (Nat.ltb_spec (String.length input) 1); [lia | reflexivity].
  - intros H. unfold Validations.check_password.
    destruct (Nat.ltb_spec (String.length input) 6); [lia|].
    destruct (Nat.ltb_spec 100 (String.length input)); [lia | reflexivity].
Qed.

Lemma blank_input_witness :
  Spec.blank "      "
  /\ Validations.check_password "      " = inl "      ".
Proof.
  assert (H : Spec.blank "      ").
  { intros c Hc. simpl in Hc.
    repeat (destruct Hc as [<- | Hc]; [reflexivity|]). destruct Hc. }
  split; [exact H|].
  apply (proj2 (proj2 (proj2 (proj2 (blank_input "      " H))))).
  simpl. lia.
Defined.

(** ** The upload control and the photo check *)

Lemma handleFileChange_accepts (f : File.t) :
  In (FileUpload.OnChange (Some f)) (FileUpload.handleFileChange (Some f)) ->
  Spec.photo_ok f.
Proof.
  unfold FileUpload.handleFileChange. intros H.
  apply (proj1 (photo_ok_reflect f)).
  destruct (JS.array_includes _ _); cbn in H; [|destruct H].
  destruct (File.size f >? _); [destruct H | reflexivity].
Qed.

Lemma handleFileChange_effects (file : option File.t) :
  FileUpload.handleFileChange file = []
  \/ (exists f, file = Some f /\ Spec.photo_ok f
                /\ FileUpload.handleFileChange file
                   = [FileUpload.ReadAsDataURL f; FileUpload.OnChange (Some f)])
  \/ (file = None
      /\ FileUpload.handleFileChange file
         = [FileUpload.SetPreview None; FileUpload.OnChange None]).
Proof.
  destruct file as [f|]; [|right; right; now split].
  destruct (FileUpload.handleFileChange (Some f)) as [|e l] eqn:E; [now left|].
  right; left. exists f. split; [reflexivity|].
  assert (Hl : e :: l = [FileUpload.ReadAsDataURL f; FileUpload.OnChange (Some f)]).
  { rewrite <- E. unfold FileUpload.handleFileChange in *.
    destruct (negb _); [discriminate E|].
    destruct (_ >? _); [discriminate E | reflexivity]. }
  split; [|exact Hl].
  apply handleFileChange_accepts. rewrite E, Hl. right. now left.
Qed.

Lemma act_held_ok (reader : File.t -> option string)
    (st : RegistrationForm.state) (a : FileUpload.action) :
  Spec.held_ok st -> Spec.held_ok (RegistrationForm.act reader st a).
Proof.
  intros Hst. unfold RegistrationForm.act.
  assert (Hc : forall file,
             Spec.held_ok
               (fold_left (RegistrationForm.apply_effect reader)
                          (FileUpload.handleFileChange file) st)).
  { intros file.
    destruct (handleFileChange_effects file)
      as [-> | [(f & _ & Hok & ->) | (_ & ->)]]; [exact Hst | exact Hok | exact I]. }
  destruct a as [first | [f|] | ]; cbn [FileUpload.effects_of FileUpload.handleDrop];
    try apply Hc. exact Hst.
Qed.

(** X4. Whatever is picked, dropped or cleared on the upload control of a fresh
    form, the held photo is absent or obeys the photo rule; so at submission
    the photo check either passes or asks for a photo, and its messages
    about the type and the size never show. *)
Theorem held_photo_is_valid (reader : File.t -> option string)
    (l : list FileUpload.action) :
  let st := RegistrationForm.acts reader RegistrationForm.initial l in
  Spec.held_ok st
  /\ (RegistrationForm.validatePhoto (RegistrationForm.photoFile st) = (true, "")
      \/ RegistrationForm.validatePhoto (RegistrationForm.photoFile st)
         = (false, "Please upload a photo")).
Proof.
  cbv zeta.
  assert (H : Spec.held_ok (RegistrationForm.acts reader RegistrationForm.initial l)).
  { unfold RegistrationForm.acts.
    generalize RegistrationForm.initial, (I : Spec.held_ok RegistrationForm.initial).
    induction l as [|a l IH]; intros st Hst; [exact Hst|].
    simpl. apply IH. now apply act_held_ok. }
  split; [exact H|]. unfold Spec.held_ok in H.
  destruct (RegistrationForm.photoFile _) as [f|]; [left | now right].
  apply photo_ok_reflect, andb_true_iff in H as [Ht Hs].
  unfold RegistrationForm.validatePhoto. rewrite Ht.
  apply negb_true_iff in Hs. now rewrite Hs.
Qed.

(** A drop that carries no file leaves the control alone, while a change of
    the file input that carries no file clears the held photo and the
    preview, like the clear button. *)
Theorem empty_drop_and_empty_pick (reader : File.t -> option string)
    (st : RegistrationForm.state) :
  RegistrationForm.act reader st (FileUpload.Drop None) = st
  /\ RegistrationForm.act reader st (FileUpload.Pick None)
     = RegistrationForm.act reader st FileUpload.Clear
  /\ RegistrationForm.photoFile (RegistrationForm.act reader st (FileUpload.Pick None))
     = None
  /\ RegistrationForm.preview (RegistrationForm.act reader st (FileUpload.Pick None))
     = None.
Proof. repeat split. Qed.

(** ** Submission of the registration form *)

Section SubmitProofs.
Variable publicUrl : string -> string.
Variables now rnd : string.
Variables upload insert : Submission.response.
Variable photoFile : option File.t.
Variable data : Validations.RegistrationFormData.

Let result := Submission.onSubmit publicUrl now rnd upload insert photoFile data.

Lemma validatePhoto_true (file : File.t) :
  fst (RegistrationForm.validatePhoto (Some file)) = true <-> Spec.photo_ok file.
Proof.
  rewrite <- photo_ok_reflect. unfold RegistrationForm.validatePhoto.
  destruct (JS.array_includes _ _), (File.size file >? _);
    cbn; split; intros H; try reflexivity; discriminate.
Qed.

Lemma onSubmit_cases :
  (exists file, photoFile = Some file /\ Spec.photo_ok file
     /\ RegistrationForm.validatePhoto photoFile = (true, ""))
  \/ (fst (RegistrationForm.validatePhoto photoFile) = false
      /\ result
         = {| Submission.requests := []; Submission.isSubmitting := false;
              Submission.isSuccess := false;
              Submission.photoError_ :=
                snd (RegistrationForm.validatePhoto photoFile);
              Submission.toasts := [] |}).
Proof.
  subst result. unfold Submission.onSubmit.
  destruct photoFile as [file|]; [|right; split; reflexivity].
  destruct (RegistrationForm.validatePhoto (Some file)) as [[|] err] eqn:E.
  - left. exists file. split; [reflexivity|].
    assert (Hok : Spec.photo_ok file) by (apply validatePhoto_true; now rewrite E).
    split; [exact Hok|]. rewrite <- E.
    apply photo_ok_reflect, andb_true_iff in Hok as [Ht Hs].
    unfold RegistrationForm.validatePhoto. rewrite Ht.
    apply negb_true_iff in Hs. now rewrite Hs.
  - right. split; reflexivity.
Qed.

(** X5. Nothing is sent to the backend unless the photo check passes; the
    upload is the first request; a row is inserted only after the upload
    has resolved without error, and that row carries the form values and
    the public URL of the uploaded path; at most one row is inserted. *)
Theorem submit_requests :
  (fst (RegistrationForm.validatePhoto photoFile) = false ->
   Submission.requests result = [] /\ Submission.toasts result = [])
  /\ (forall table row,
        In (Submission.Insert table row) (Submission.requests result) ->
        upload = Submission.Done
        /\ exists file,
             photoFile = Some file /\ Spec.photo_ok file
             /\ table = "registrations"
             /\ row = Submission.insert_row data
                        (publicUrl (RegistrationForm.uploadPath now rnd file))
             /\ Submission.requests result
                = [ Submission.Upload "registration-photos"
                      (RegistrationForm.uploadPath now rnd file) file;
                    Submission.Insert table row ]).
Proof.
  split.
  - intros Hfail. destruct onSubmit_cases as [(file & -> & _ & E) | [_ ->]].
    + rewrite E in Hfail. discriminate Hfail.
    + now split.
  - intros table row Hin.
    destruct onSubmit_cases as [(file & Ef & Hok & E) | [_ Er]];
      [|rewrite Er in Hin; destruct Hin].
    subst result. unfold Submission.onSubmit in *. rewrite Ef in *. rewrite E in *.
    destruct upload as [|m|m]; cbn in Hin.
    + split; [reflexivity|]. exists file.
      assert (Hi : Submission.Insert table row
                   = Submission.Insert "registrations"
                       (Submission.insert_row data
                          (publicUrl (RegistrationForm.uploadPath now rnd file)))).
      { destruct insert; cbn in Hin;
          destruct Hin as [H|[H|[]]]; try discriminate H; now rewrite H. }
      injection Hi as -> ->.
      split; [first [exact Ef | reflexivity]|]. split; [exact Hok|].
      split; [reflexivity|]. split; [reflexivity|].
      destruct insert; reflexivity.
    + destruct Hin as [H|[]]; discriminate H.
    + destruct Hin as [H|[]]; discriminate H.
Qed.


End SubmitProofs.

(** ** The object path of a photo URL *)

Lemma chars_app (a b : string) :
  list_ascii_of_string (a +:+ b)
  = list_ascii_of_string a ++ list_ascii_of_string b.
Proof.
  induction a as [|c a IH]; [reflexivity|].
  change (c :: list_ascii_of_string (a +:+ b)
          = c :: (list_ascii_of_string a ++ list_ascii_of_string b)).
  now rewrite IH.
Qed.

Lemma no_slash_app (a b : string) :
  Spec.no_slash a -> Spec.no_slash b -> Spec.no_slash (a +:+ b).
Proof.
  unfold Spec.no_slash. rewrite chars_app, in_app_iff. tauto.
Qed.

Lemma split_nonempty (sep : ascii) (s : string) : JS.split sep s <> [].
Proof.
  destruct s as [|c r]; simpl; [discriminate|].
  destruct (Ascii.eqb c sep); [discriminate|].
  destruct (JS.split sep r); discriminate.
Qed.

Lemma split_app_sep (sep : ascii) (x y : string) :
  JS.split sep (x +:+ String sep y) = JS.split sep x ++ JS.split sep y.
Proof.
  induction x as [|c x IH].
  - change (JS.split sep (String sep y) = [""] ++ JS.split sep y).
    simpl. now rewrite Ascii.eqb_refl.
  - change (JS.split sep (String c (x +:+ String sep y))
            = JS.split sep (String c x) ++ JS.split sep y).
    simpl. rewrite IH. destruct (Ascii.eqb c sep); [reflexivity|].
    pose proof (split_nonempty sep x) as Hne.
    destruct (JS.split sep x); [contradiction | reflexivity].
Qed.

Lemma split_no_sep (sep : ascii) (s : string) :
  ~ In sep (list_ascii_of_string s) -> JS.split sep s = [s].
Proof.
  induction s as [|c s IH]; [reflexivity|]. simpl. intros H.
  destruct (Ascii.eqb_spec c sep) as [->|_]; [exfalso; apply H; now left|].
  rewrite IH; [reflexivity|]. intros Hin. apply H. now right.
Qed.

Lemma split_segment_chars (sep : ascii) (s seg : string) (c : ascii) :
  In seg (JS.split sep s) -> In c (list_ascii_of_string seg) ->
  In c (list_ascii_of_string s).
Proof.
  revert seg. induction s as [|d s IH]; intros seg; simpl.
  - intros [<- | []] H. exact H.
  - destruct (Ascii.eqb d sep).
    + intros [<- | Hin] H; [destruct H | right; eauto].
    + pose proof (split_nonempty sep s) as Hne.
      destruct (JS.split sep s) as [|seg0 segs]; [contradiction|].
      intros [<- | Hin] H.
      * destruct H as [<- | H]; [now left | right].
        apply (IH seg0); [now left | exact H].
      * right. apply (IH seg); [now right | exact H].
Qed.

Lemma slice_last_two {A} (l : list A) (a b : A) :
  JS.slice (l ++ [a; b]) (-2) (Z.of_nat (length (l ++ [a; b]))) = [a; b].
Proof.
  unfold JS.slice, JS.slice_index. rewrite length_app. cbn [length].
  destruct (Z.ltb_spec (Z.of_nat (length l + 2)) 0) as [H|_]; [lia|].
  cbn [Z.ltb Z.compare].
  replace (Z.to_nat (Z.max (Z.of_nat (length l + 2) + -2) 0)) with (length l) by lia.
  rewrite drop_app_length.
  replace (Z.to_nat _) with 2%nat by lia. reflexivity.
Qed.

Lemma filePath_two_segments (base a b : string) :
  Spec.no_slash a -> Spec.no_slash b ->
  AdminDashboard.filePath (base +:+ "/" +:+ a +:+ "/" +:+ b) = a +:+ "/" +:+ b.
Proof.
  intros Ha Hb. unfold AdminDashboard.filePath.
  change (base +:+ "/" +:+ a +:+ "/" +:+ b)
    with (base +:+ String "/" (a +:+ String "/" b)).
  rewrite !split_app_sep, (split_no_sep "/" a Ha), (split_no_sep "/" b Hb).
  change ([a] ++ [b]) with [a; b].
  now rewrite slice_last_two.
Qed.

(** X7. The stored-object path taken from a photo URL is the text after the
    last but one slash: for a URL that ends in two slash-free segments it
    is those two segments, whatever comes before them; a URL without any
    slash is returned whole. *)
Theorem filePath_last_segments (base a b : string)
    (Ha : Spec.no_slash a) (Hb : Spec.no_slash b) :
  AdminDashboard.filePath (base +:+ "/" +:+ a +:+ "/" +:+ b) = a +:+ "/" +:+ b
  /\ AdminDashboard.filePath (a +:+ "/" +:+ b) = a +:+ "/" +:+ b
  /\ AdminDashboard.filePath a = a.
Proof.
  split; [now apply filePath_two_segments|]. split.
  - unfold AdminDashboard.filePath.
    change (a +:+ "/" +:+ b) with (a +:+ String "/" b).
    rewrite split_app_sep, (split_no_sep "/" a Ha), (split_no_sep "/" b Hb).
    reflexivity.
  - unfold AdminDashboard.filePath. now rewrite (split_no_sep "/" a Ha).
Qed.

Lemma filePath_last_segments_witness :
  (Spec.no_slash "registrations" /\ Spec.no_slash "17-ab.png")
  /\ AdminDashboard.filePath
       ("https://host/public/registration-photos" +:+ "/" +:+ "registrations"
        +:+ "/" +:+ "17-ab.png")
     = "registrations" +:+ "/" +:+ "17-ab.png".
Proof.
  assert (Ha : Spec.no_slash "registrations").
  { intros H. simpl in H.
    repeat (destruct H as [H | H]; [discriminate H|]). destruct H. }
  assert (Hb : Spec.no_slash "17-ab.png").
  { intros H. simpl in H.
    repeat (destruct H as [H | H]; [discriminate H|]). destruct H. }
  split; [now split|].
  exact (proj1 (filePath_last_segments
                  "https://host/public/registration-photos"
                  "registrations" "17-ab.png" Ha Hb)).
Defined.

Lemma fileExt_no_slash (name : string) :
  Spec.no_slash name -> Spec.no_slash (RegistrationForm.fileExt name).
Proof.
  unfold Spec.no_slash, RegistrationForm.fileExt. intros Hn Hin. apply Hn.
  destruct (last (JS.split "." name)) as [seg|] eqn:E; [|destruct Hin].
  apply (split_segment_chars "." name seg); [|exact Hin].
  apply list_elem_of_In, last_Some_elem_of, E.
Qed.

(** X8. The delete handler aims at the object the form uploaded: when the clock
    text, the random text and the file name hold no slash, the path taken
    from a URL that ends in the upload path is the upload path. *)
Theorem delete_targets_uploaded_object (base now rnd : string) (file : File.t)
    (Hnow : Spec.no_slash now) (Hrnd : Spec.no_slash rnd)
    (Hname : Spec.no_slash (File.name file)) :
  AdminDashboard.filePath
    (base +:+ "/" +:+ RegistrationForm.uploadPath now rnd file)
  = RegistrationForm.uploadPath now rnd file.
Proof.
  unfold RegistrationForm.uploadPath.
  set (fileName := now +:+ "-" +:+ rnd +:+ "." +:+
                   RegistrationForm.fileExt (File.name file)).
  assert (Hf : Spec.no_slash fileName).
  { unfold fileName. repeat apply no_slash_app; auto using fileExt_no_slash;
      intros H; simpl in H; destruct H as [H|[]]; discriminate H. }
  change ("registrations/" +:+ fileName)
    with ("registrations" +:+ "/" +:+ fileName).
  apply filePath_two_segments; [|exact Hf].
  intros H. simpl in H.
  repeat (destruct H as [H | H]; [discriminate H|]). destruct H.
Qed.

Lemma delete_targets_uploaded_object_witness :
  (Spec.no_slash "17" /\ Spec.no_slash "ab"
   /\ Spec.no_slash (File.name (File.mk "me.png" "image/png" 100)))
  /\ AdminDashboard.filePath
       ("https://host/public/registration-photos" +:+ "/"
        +:+ RegistrationForm.uploadPath "17" "ab" (File.mk "me.png" "image/png" 100))
     = "registrations/17-ab.png".
Proof.
  assert (Hnow : Spec.no_slash "17").
  { intros H. simpl in H.
    repeat (destruct H as [H | H]; [discriminate H|]). destruct H. }
  assert (Hrnd : Spec.no_slash "ab").
  { intros H. simpl in H.
    repeat (destruct H as [H | H]; [discriminate H|]). destruct H. }
  assert (Hname : Spec.no_slash (File.name (File.mk "me.png" "image/png" 100))).
  { intros H. simpl in H.
    repeat (destruct H as [H | H]; [discriminate H|]). destruct H. }
  split; [now repeat split|].
  exact (delete_targets_uploaded_object
           "https://host/public/registration-photos" "17" "ab"
           (File.mk "me.png" "image/png" 100) Hnow Hrnd Hname).
Defined.

(** ** Delete and update on the in-memory list *)

Lemma keeps_true (id : string) (r : Registration) :
  Spec.keeps id r = true <-> Registration.id r <> id.
Proof.
  unfold Spec.keeps. rewrite negb_true_iff.
  destruct (String.eqb_spec (Registration.id r) id); split; congruence.
Qed.

Lemma delete_success_eq (e : option string) (prev : list Registration)
    (id photoUrl : string) :
  AdminDashboard.registrations
    (AdminDashboard.handleDelete (Resolved e) (Resolved None) prev id photoUrl)
  = List.filter (Spec.keeps id) prev.
Proof. reflexivity. Qed.

Lemma filter_keeps_absent (id : string) (l : list Registration) :
  ~ In id (Spec.ids l) -> List.filter (Spec.keeps id) l = l.
Proof.
  induction l as [|r l IH]; [reflexivity|]. simpl. intros H.
  destruct (Spec.keeps id r) eqn:E.
  - f_equal. apply IH. tauto.
  - exfalso. apply H. left.
    destruct (String.eqb_spec (Registration.id r) id) as [Heq|Hne]; [exact Heq|].
    apply keeps_true in Hne. congruence.
Qed.

(** X9. A delete whose row deletion succeeds leaves in memory exactly the
    records with another identifier, in their order, and reports success;
    this is so even when the photo removal resolved with an error, which the
    handler does not look at. *)
Theorem delete_success (storage_error : option string)
    (prev : list Registration) (id photoUrl : string) :
  let r := AdminDashboard.handleDelete (Resolved storage_error) (Resolved None)
             prev id photoUrl in
  (forall x, In x (AdminDashboard.registrations r)
             <-> In x prev /\ Registration.id x <> id)
  /\ sublist (AdminDashboard.registrations r) prev
  /\ AdminDashboard.toasts r = [ToastSuccess "Registration deleted successfully"]
  /\ AdminDashboard.requests r
     = [ StorageRemove "registration-photos" [AdminDashboard.filePath photoUrl];
         DbDelete "registrations" id ].
Proof.
  cbv zeta. rewrite delete_success_eq. split; [|split; [|split; reflexivity]].
  - intros x. now rewrite filter_In, keeps_true.
  - induction prev as [|x l IH]; [constructor|]. simpl.
    destruct (Spec.keeps id x); now constructor.
Qed.

(** X10. With pairwise distinct identifiers in memory, a successful delete of an
    identifier that is present removes exactly one record. *)
Theorem delete_removes_one (storage_error : option string)
    (prev : list Registration) (id photoUrl : string)
    (Hnodup : NoDup (Spec.ids prev)) (Hin : In id (Spec.ids prev)) :
  S (length (AdminDashboard.registrations
               (AdminDashboard.handleDelete (Resolved storage_error)
                  (Resolved None) prev id photoUrl)))
  = length prev.
Proof.
  rewrite delete_success_eq.
  induction prev as [|r l IH]; [destruct Hin|].
  apply NoDup_cons in Hnodup as [Hr Hl]. simpl.
  destruct (Spec.keeps id r) eqn:E.
  - simpl. f_equal. apply IH; [exact Hl|].
    destruct Hin as [Heq | Hin]; [|exact Hin].
    apply keeps_true in E. congruence.
  - f_equal. rewrite filter_keeps_absent; [reflexivity|].
    destruct (String.eqb_spec (Registration.id r) id) as [<-|Hne].
    + intros H. apply Hr. now apply list_elem_of_In.
    + apply keeps_true in Hne. congruence.
Qed.

Lemma delete_removes_one_witness :
  (NoDup (Spec.ids [ann; ben]) /\ In "b" (Spec.ids [ann; ben]))
  /\ S (length (AdminDashboard.registrations
                  (AdminDashboard.handleDelete (Resolved None) (Resolved None)
                     [ann; ben] "b" (Registration.photo_url ben))))
     = 2%nat.
Proof.
  assert (Hnodup : NoDup (Spec.ids [ann; ben])).
  { apply NoDup_cons. split.
    - intros H. apply list_elem_of_In in H. destruct H as [H|[]]. discriminate H.
    - apply NoDup_cons. split; [intros H; inversion H | apply NoDup_nil_2]. }
  assert (Hin : In "b" (Spec.ids [ann; ben])) by (right; now left).
  split; [now split|].
  exact (delete_removes_one None [ann; ben] "b" (Registration.photo_url ben)
           Hnodup Hin).
Defined.

(** X11. A successful delete of an identifier that no record in memory carries
    leaves the list as it is, and deleting the same identifier a second
    time changes nothing more. *)
Theorem delete_absent_and_repeated (e1 e2 : option string)
    (prev : list Registration) (id url1 url2 : string) :
  let once := AdminDashboard.registrations
                (AdminDashboard.handleDelete (Resolved e1) (Resolved None)
                   prev id url1) in
  (~ In id (Spec.ids prev) -> once = prev)
  /\ ~ In id (Spec.ids once)
  /\ AdminDashboard.registrations
       (AdminDashboard.handleDelete (Resolved e2) (Resolved None) once id url2)
     = once.
Proof.
  cbv zeta. rewrite !delete_success_eq.
  assert (Habs : ~ In id (Spec.ids (List.filter (Spec.keeps id) prev))).
  { unfold Spec.ids. rewrite in_map_iff. intros (x & Hx & Hin).
    apply filter_In in Hin as [_ Hk]. apply keeps_true in Hk. contradiction. }
  split; [apply filter_keeps_absent|]. split; [exact Habs|].
  now apply filter_keeps_absent.
Qed.

(** X12. When the update request reports failure (it resolves with an error or
    it rejects) the list in memory is the one before and the failure is
    reported; the request had been sent. *)
Theorem update_failure (db : outcome) (prev : list Registration)
    (id : string) (data : Partial.t) (Hdb : db <> Resolved None) :
  let r := AdminDashboard.handleUpdate db prev id data in
  AdminDashboard.registrations r = prev
  /\ AdminDashboard.toasts r = [ToastError "Failed to update registration"]
  /\ AdminDashboard.requests r = [DbUpdate "registrations" id data].
Proof.
  cbv zeta. destruct db as [[e|]|]; try (repeat split; reflexivity). congruence.
Qed.

Lemma update_failure_witness :
  Rejected <> Resolved None
  /\ AdminDashboard.registrations
       (AdminDashboard.handleUpdate Rejected [ann; ben] "b"
          (Partial.mk None (Some "Benjamin") None None None None None None None None))
     = [ann; ben].
Proof.
  assert (H : Rejected <> Resolved None) by discriminate.
  split; [exact H|].
  exact (proj1 (update_failure Rejected [ann; ben] "b"
                  (Partial.mk None (Some "Benjamin") None None None None None
                     None None None) H)).
Defined.

(** X13. An update whose patch holds no identifier keeps the identifiers of the
    list, in order, whatever the request returned; and an update of an
    identifier that no record carries leaves the list as it is. *)
Theorem update_keeps_ids (db : outcome) (prev : list Registration)
    (id : string) (data : Partial.t) (Hid : Partial.id data = None) :
  let new := AdminDashboard.registrations
               (AdminDashboard.handleUpdate db prev id data) in
  Spec.ids new = Spec.ids prev
  /\ length new = length prev
  /\ (~ In id (Spec.ids prev) -> new = prev).
Proof.
  cbv zeta. destruct db as [[e|]|]; try (repeat split; reflexivity).
  cbn [AdminDashboard.handleUpdate AdminDashboard.registrations].
  split; [|split].
  - unfold Spec.ids. rewrite map_map. apply map_ext. intros r.
    destruct (String.eqb (Registration.id r) id); [|reflexivity].
    unfold spread. cbn. now rewrite Hid.
  - apply length_map.
  - intros Habs. rewrite <- (map_id prev) at 2. apply map_ext_in.
    intros r Hr. destruct (String.eqb_spec (Registration.id r) id) as [E|_];
      [|reflexivity].
    exfalso. apply Habs. unfold Spec.ids. rewrite in_map_iff. eauto.
Qed.

Lemma update_keeps_ids_witness :
  Partial.id (Partial.mk None (Some "Benjamin") None None None None None None
                None None) = None
  /\ Spec.ids (AdminDashboard.registrations
                 (AdminDashboard.handleUpdate (Resolved None) [ann; ben] "b"
                    (Partial.mk None (Some "Benjamin") None None None None None
                       None None None)))
     = Spec.ids [ann; ben].
Proof.
  split; [reflexivity|].
  exact (proj1 (update_keeps_ids (Resolved None) [ann; ben] "b"
                  (Partial.mk None (Some "Benjamin") None None None None None
                     None None None) eq_refl)).
Defined.

Lemma save_prefill (db : outcome) (prev : list Registration)
    (reg : Registration) :
  (forall r, In r prev -> Registration.id r = Registration.id reg -> r = reg) ->
  EditModal.save db prev (Some reg) (EditModal.prefill reg) = prev.
Proof.
  intros Hsame. unfold EditModal.save. cbn [EditModal.onSubmit].
  destruct db as [[e|]|]; try reflexivity.
  cbn [AdminDashboard.handleUpdate AdminDashboard.registrations].
  rewrite <- (map_id prev) at 2. apply map_ext_in. intros r Hr.
  destruct (String.eqb_spec (Registration.id r) (Registration.id reg)) as [E|_];
    [|reflexivity].
  rewrite (Hsame r Hr E). now destruct reg.
Qed.

Lemma mobileNumber_value (input v : string) :
  Validations.mobileNumber input = inl v -> v = JS.trim input.
Proof.
  unfold Validations.mobileNumber.
  destruct (Validations.regex_ten_digits _); [|discriminate].
  intros E. now injection E as <-.
Qed.

Lemma check_email_value (email_ok : string -> bool) (input v : string) :
  Validations.check_email email_ok input = inl v -> v = JS.trim input.
Proof.
  unfold Validations.check_email.
  destruct (negb _); [discriminate|]. destruct (_ <? _)%nat; [discriminate|].
  intros E. now injection E as <-.
Qed.

Lemma check_department_value (input v : string) :
  Validations.check_department input = inl v -> v = input.
Proof.
  unfold Validations.check_department.
  destruct (_ <? _)%nat; [discriminate|]. intros E. now injection E as <-.
Qed.

(** X14. Submitting the edit form with the values it was filled with leaves
    the list in memory as it was, whatever the schema and the backend
    answer, provided that the name, mobile number, email and address of the
    selected record carry no leading or trailing white space (the schema
    trims them) and that every record with the identifier of the selected
    record is that record. *)
Theorem save_unchanged_form (email_ok : string -> bool) (db : outcome)
    (prev : list Registration) (reg : Registration)
    (Hsame : forall r, In r prev ->
               Registration.id r = Registration.id reg -> r = reg)
    (Htrim : JS.trim (Registration.full_name reg) = Registration.full_name reg
             /\ JS.trim (Registration.mobile_number reg)
                = Registration.mobile_number reg
             /\ JS.trim (Registration.email reg) = Registration.email reg
             /\ JS.trim (Registration.address reg) = Registration.address reg) :
  EditModal.submit email_ok db prev (Some reg) (EditModal.prefill reg) = prev.
Proof.
  destruct Htrim as (Hn & Hm & He & Ha).
  unfold EditModal.submit, Validations.registrationSchema.
  cbn [EditModal.prefill Validations.fullName Validations.mobileNumber_
         Validations.email Validations.gender Validations.department
         Validations.address].
  destruct (Validations.check_fullName _) as [n|] eqn:En; [|reflexivity].
  destruct (Validations.mobileNumber _) as [m|] eqn:Em; [|reflexivity].
  destruct (Validations.check_email _ _) as [e|] eqn:Ee; [|reflexivity].
  destruct (Validations.check_department _) as [d|] eqn:Ed; [|reflexivity].
  destruct (Validations.check_address _) as [a|] eqn:Ea; [|reflexivity].
  apply trimmed_length_rule_inl in En as [-> _].
  apply mobileNumber_value in Em as ->.
  apply check_email_value in Ee as ->.
  apply check_department_value in Ed as ->.
  apply trimmed_length_rule_inl in Ea as [-> _].
  rewrite Hn, Hm, He, Ha. now apply save_prefill.
Qed.

Lemma save_unchanged_form_witness :
  ((forall r, In r [ann; ben] -> Registration.id r = Registration.id ben -> r = ben)
   /\ JS.trim (Registration.full_name ben) = Registration.full_name ben
   /\ JS.trim (Registration.mobile_number ben) = Registration.mobile_number ben
   /\ JS.trim (Registration.email ben) = Registration.email ben
   /\ JS.trim (Registration.address ben) = Registration.address ben)
  /\ EditModal.submit (fun _ => true) (Resolved None) [ann; ben] (Some ben)
       (EditModal.prefill ben)
     = [ann; ben].
Proof.
  assert (H : forall r, In r [ann; ben] ->
                Registration.id r = Registration.id ben -> r = ben).
  { intros r [<- | [<- | []]] E; [discriminate E | reflexivity]. }
  assert (Ht : JS.trim (Registration.full_name ben) = Registration.full_name ben
               /\ JS.trim (Registration.mobile_number ben)
                  = Registration.mobile_number ben
               /\ JS.trim (Registration.email ben) = Registration.email ben
               /\ JS.trim (Registration.address ben) = Registration.address ben).
  { repeat split; reflexivity. }
  split; [split; [exact H | exact Ht]|].
  exact (save_unchanged_form (fun _ => true) (Resolved None) [ann; ben] ben H Ht).
Defined.

(** X15. The filtered view after a successful delete is the filtered view before
    it without the records of the deleted identifier, so the view never
    grows by a delete. *)
Theorem view_after_delete (e : option string) (prev : list Registration)
    (id photoUrl s d : string) :
  let new := AdminDashboard.registrations
               (AdminDashboard.handleDelete (Resolved e) (Resolved None)
                  prev id photoUrl) in
  RegistrationsTable.filteredRegistrations new s d
  = List.filter (Spec.keeps id) (RegistrationsTable.filteredRegistrations prev s d)
  /\ (length (RegistrationsTable.filteredRegistrations new s d)
      <= length (RegistrationsTable.filteredRegistrations prev s d))%nat.
Proof.
  cbv zeta. rewrite delete_success_eq.
  assert (Hc : RegistrationsTable.filteredRegistrations (List.filter (Spec.keeps id) prev) s d
               = List.filter (Spec.keeps id)
                   (RegistrationsTable.filteredRegistrations prev s d)).
  { unfold RegistrationsTable.filteredRegistrations.
    induction prev as [|r l IH]; [reflexivity|]. simpl.
    destruct (Spec.keeps id r) eqn:Ek;
      destruct (RegistrationsTable.matchesSearch s r
                && RegistrationsTable.matchesDepartment d r) eqn:Em;
      simpl; rewrite ?Ek, ?Em, IH; reflexivity. }
  split; [exact Hc|]. rewrite Hc. apply filter_length_le.
Qed.

(** ** More on pagination *)

Lemma chunks_concat {A} (k : nat) :
  forall l : list A,
    (length l <= 10 * k)%nat ->
    concat (map (fun i => take 10 (drop (10 * i) l)) (seq 0 k)) = l.
Proof.
  induction k as [|k IH]; intros l Hl.
  - destruct l; [reflexivity | simpl in Hl; lia].
  - cbn [seq map concat]. rewrite <- seq_shift, map_map.
    rewrite (map_ext _ (fun i => take 10 (drop (10 * i) (drop 10 l)))).
    + rewrite IH by (rewrite length_drop; lia).
      change (drop (10 * 0) l) with l. apply take_drop.
    + intros i. rewrite drop_drop. do 2 f_equal. lia.
Qed.

(** X16. The pages 1 to [totalPages] of a filtered list, put one after the
    other, give the filtered list back: every record is on exactly one page
    and the order is kept. *)
Theorem pages_partition (filtered : list Registration) :
  concat (Spec.all_pages filtered) = filtered.
Proof.
  unfold Spec.all_pages.
  rewrite (map_ext _ (fun i => take 10 (drop (10 * i) filtered))).
  - apply chunks_concat. pose proof (totalPages_ceil filtered) as H.
    cbv zeta in H. lia.
  - intros i. rewrite paginated_take_drop by lia. do 2 f_equal. lia.
Qed.

(** X17. Every page before the last one shows ten records, the last page shows
    the remaining one to ten, and a page after the last one shows none. *)
Theorem page_sizes (filtered : list Registration) (p : Z) (Hp : 1 <= p) :
  let n := Z.of_nat (length filtered) in
  let total := RegistrationsTable.totalPages filtered in
  let shown := RegistrationsTable.paginatedRegistrations filtered p in
  (p < total -> length shown = 10%nat)
  /\ (p = total ->
      1 <= Z.of_nat (length shown) <= 10
      /\ Z.of_nat (length shown) = n - 10 * (total - 1))
  /\ (total < p -> shown = []).
Proof.
  cbv zeta. pose proof (totalPages_ceil filtered) as H. cbv zeta in H.
  rewrite paginated_take_drop by exact Hp.
  split; [|split].
  - intros Hlt. rewrite length_take, length_drop. lia.
  - intros ->. rewrite length_take, length_drop. lia.
  - intros Hgt. rewrite drop_ge by lia. apply take_nil.
Qed.

Lemma page_sizes_witness :
  1 <= 2
  /\ (2 < RegistrationsTable.totalPages (samples 25) ->
      length (RegistrationsTable.paginatedRegistrations (samples 25) 2) = 10%nat).
Proof.
  assert (H : 1 <= 2) by lia.
  split; [exact H|].
  exact (proj1 (page_sizes (samples 25) 2 H)).
Defined.

(** X18. On a page of the view the line "Showing a-b of n" counts the rows that
    are shown: b - a + 1 is the number of records on the page, and
    1 <= a <= b <= n. *)
Theorem showing_counts_rows (filtered : list Registration) (p : Z)
    (Hlo : 1 <= p) (Hhi : p <= RegistrationsTable.totalPages filtered) :
  let '(a, b, n) := RegistrationsTable.showing filtered p in
  b - a + 1
  = Z.of_nat (length (RegistrationsTable.paginatedRegistrations filtered p))
  /\ 1 <= a <= b /\ b <= n /\ n = Z.of_nat (length filtered).
Proof.
  unfold RegistrationsTable.showing, RegistrationsTable.startIndex,
    RegistrationsTable.ITEMS_PER_PAGE.
  pose proof (totalPages_ceil filtered) as H. cbv zeta in H.
  rewrite paginated_take_drop by exact Hlo.
  rewrite length_take, length_drop. lia.
Qed.

Lemma showing_counts_rows_witness :
  (1 <= 3 /\ 3 <= RegistrationsTable.totalPages (samples 25))
  /\ (let '(a, b, n) := RegistrationsTable.showing (samples 25) 3 in
      b - a + 1
      = Z.of_nat (length (RegistrationsTable.paginatedRegistrations (samples 25) 3))
      /\ 1 <= a <= b /\ b <= n /\ n = Z.of_nat (length (samples 25))).
Proof.
  assert (Hlo : 1 <= 3) by lia.
  assert (Hhi : 3 <= RegistrationsTable.totalPages (samples 25))
    by (vm_compute; discriminate).
  split; [now split|].
  exact (showing_counts_rows (samples 25) 3 Hlo Hhi).
Defined.

Lemma setCurrentPage_back (st : RegistrationsTable.state) (p q : Z) :
  p = RegistrationsTable.currentPage st ->
  RegistrationsTable.setCurrentPage p (RegistrationsTable.setCurrentPage q st) = st.
Proof. intros ->. now destruct st. Qed.

(** X19. On a page of the view the two page buttons undo each other: next then
    previous returns to the page when it is not the last one, previous then
    next returns to it when it is not the first one; next on the last page
    and previous on page 1 do nothing. *)
Theorem next_and_previous (regs : list Registration)
    (st : RegistrationsTable.state) :
  let total := RegistrationsTable.view_totalPages regs st in
  let page := RegistrationsTable.currentPage st in
  (1 <= page < total ->
   RegistrationsTable.clickPrevious regs (RegistrationsTable.clickNext regs st)
   = st)
  /\ (1 < page <= total ->
      RegistrationsTable.clickNext regs (RegistrationsTable.clickPrevious regs st)
      = st)
  /\ (page = total -> RegistrationsTable.clickNext regs st = st)
  /\ (page = 1 -> RegistrationsTable.clickPrevious regs st = st).
Proof.
  cbv zeta. split; [|split; [|split]].
  - intros H. unfold RegistrationsTable.clickNext.
    destruct (Z.gtb_spec (RegistrationsTable.view_totalPages regs st) 1); [|lia].
    destruct (Z.eqb_spec (RegistrationsTable.currentPage st)
                (RegistrationsTable.view_totalPages regs st)); [lia|].
    cbn [andb negb]. unfold RegistrationsTable.clickPrevious.
    change (RegistrationsTable.view_totalPages regs
              (RegistrationsTable.setCurrentPage _ st))
      with (RegistrationsTable.view_totalPages regs st).
    destruct (Z.gtb_spec (RegistrationsTable.view_totalPages regs st) 1); [|lia].
    cbn [RegistrationsTable.currentPage RegistrationsTable.setCurrentPage].
    unfold RegistrationsTable.next_updater, RegistrationsTable.prev_updater.
    destruct (Z.eqb_spec (Z.min (RegistrationsTable.view_totalPages regs st)
                            (RegistrationsTable.currentPage st + 1)) 1); [lia|].
    cbn [andb negb]. apply setCurrentPage_back. lia.
  - intros H. unfold RegistrationsTable.clickPrevious.
    destruct (Z.gtb_spec (RegistrationsTable.view_totalPages regs st) 1); [|lia].
    destruct (Z.eqb_spec (RegistrationsTable.currentPage st) 1); [lia|].
    cbn [andb negb]. unfold RegistrationsTable.clickNext.
    change (RegistrationsTable.view_totalPages regs
              (RegistrationsTable.setCurrentPage _ st))
      with (RegistrationsTable.view_totalPages regs st).
    destruct (Z.gtb_spec (RegistrationsTable.view_totalPages regs st) 1); [|lia].
    cbn [RegistrationsTable.currentPage RegistrationsTable.setCurrentPage].
    unfold RegistrationsTable.next_updater, RegistrationsTable.prev_updater.
    destruct (Z.eqb_spec (Z.max 1 (RegistrationsTable.currentPage st - 1))
                (RegistrationsTable.view_totalPages regs st)); [lia|].
    cbn [andb negb]. apply setCurrentPage_back. lia.
  - intros H. unfold RegistrationsTable.clickNext.
    destruct (Z.eqb_spec (RegistrationsTable.currentPage st)
                (RegistrationsTable.view_totalPages regs st)); [|contradiction].
    now rewrite andb_false_r.
  - intros H. unfold RegistrationsTable.clickPrevious.
    destruct (Z.eqb_spec (RegistrationsTable.currentPage st) 1); [|contradiction].
    now rewrite andb_false_r.
Qed.

Lemma unconstrained (r : Registration) :
  RegistrationsTable.matchesSearch "" r
    && RegistrationsTable.matchesDepartment "all" r = true.
Proof.
  unfold RegistrationsTable.matchesSearch, RegistrationsTable.matchesDepartment.
  cbn [JS.toLowerCase]. now rewrite !includes_empty.
Qed.

(** X20. After the filters are cleared the table shows the first ten records of
    the whole list in memory (all of them when there are fewer), whatever
    was searched, selected or paged before. *)
Theorem clear_shows_first_page (regs : list Registration)
    (st : RegistrationsTable.state) :
  let st' := RegistrationsTable.clearFilters st in
  RegistrationsTable.view_filtered regs st' = regs
  /\ RegistrationsTable.view_page regs st' = take 10 regs.
Proof.
  cbv zeta.
  assert (Hall : RegistrationsTable.view_filtered regs
                   (RegistrationsTable.clearFilters st) = regs).
  { unfold RegistrationsTable.view_filtered,
      RegistrationsTable.filteredRegistrations. cbn.
    induction regs as [|r l IH]; [reflexivity|].
    cbn [List.filter]. now rewrite unconstrained, IH. }
  split; [exact Hall|].
  unfold RegistrationsTable.view_page. rewrite Hall.
  change (RegistrationsTable.currentPage (RegistrationsTable.clearFilters st))
    with 1.
  now rewrite paginated_take_drop by lia.
Qed.

(** ** The delete dialog *)

(** X21. After a click on the delete button of a row with a non-empty
    identifier, confirming hands that identifier and photo URL to the delete
    handler; confirming again, or confirming after the dialog was closed,
    hands over nothing.  Confirming never touches the search text, the
    department selection or the page index, whatever the backend answers. *)
Theorem delete_dialog (st : RegistrationsTable.state) (id photoUrl : string)
    (Hid : id <> "") :
  let asked := RegistrationsTable.handleDeleteClick id photoUrl st in
  let confirmed := RegistrationsTable.confirmDelete asked in
  fst confirmed = Some (id, photoUrl)
  /\ fst (RegistrationsTable.confirmDelete (snd confirmed)) = None
  /\ fst (RegistrationsTable.confirmDelete (RegistrationsTable.onOpenChange asked))
     = None
  /\ (forall storage db regs,
        let app := App.confirm_delete storage db (App.mkApp regs asked) in
        RegistrationsTable.search (App.table app) = RegistrationsTable.search st
        /\ RegistrationsTable.departmentFilter (App.table app)
           = RegistrationsTable.departmentFilter st
        /\ RegistrationsTable.currentPage (App.table app)
           = RegistrationsTable.currentPage st).
Proof.
  cbv zeta.
  unfold RegistrationsTable.confirmDelete, RegistrationsTable.handleDeleteClick,
    App.confirm_delete, RegistrationsTable.confirmDelete.
  cbn [RegistrationsTable.deleteId App.table].
  destruct (String.eqb_spec id "") as [E|_]; [contradiction|].
  repeat split.
Qed.

Lemma delete_dialog_witness :
  "b" <> ""
  /\ fst (RegistrationsTable.confirmDelete
            (RegistrationsTable.handleDeleteClick "b" "u"
               RegistrationsTable.initial))
     = Some ("b", "u").
Proof.
  assert (H : "b" <> "") by discriminate.
  split; [exact H|].
  exact (proj1 (delete_dialog RegistrationsTable.initial "b" "u" H)).
Defined.

(** ** The statistics of the dashboard *)

Lemma size_list_to_set_le (l : list string) :
  (size (list_to_set (C := gset string) l) <= length l)%nat.
Proof.
  induction l as [|x l IH]; [reflexivity|].
  cbn [list_to_set foldr length]. rewrite size_union_alt, size_singleton.
  assert (Hsub : list_to_set (C := gset string) l ∖ {[x]} ⊆ list_to_set l).
  { intros y Hy. now apply elem_of_difference in Hy as [Hy _]. }
  apply subseteq_size in Hsub. lia.
Qed.

Lemma departments_subset (f : Registration -> bool) (regs : list Registration) :
  list_to_set (C := gset string) (map Registration.department (List.filter f regs))
  ⊆ list_to_set (C := gset string) (map Registration.department regs).
Proof.
  intros d. rewrite !elem_of_list_to_set, !list_elem_of_In, !in_map_iff.
  intros (r & Hd & Hr). apply filter_In in Hr as [Hr _]. eauto.
Qed.

(** X22. The tiles never show more than there is: the submissions of today and
    the number of departments are at most the number of records, a
    non-empty list has at least one department, and a successful delete
    raises none of the three numbers. *)
Theorem stats_bounds (toDateString : string -> string) (today : string)
    (regs : list Registration) :
  (AdminDashboard.todaySubmissions toDateString today regs <= length regs)%nat
  /\ (AdminDashboard.uniqueDepartments regs <= length regs)%nat
  /\ (regs <> [] -> (1 <= AdminDashboard.uniqueDepartments regs)%nat)
  /\ (forall e id photoUrl,
        let new := AdminDashboard.registrations
                     (AdminDashboard.handleDelete (Resolved e) (Resolved None)
                        regs id photoUrl) in
        (length new <= length regs)%nat
        /\ (AdminDashboard.todaySubmissions toDateString today new
            <= AdminDashboard.todaySubmissions toDateString today regs)%nat
        /\ (AdminDashboard.uniqueDepartments new
            <= AdminDashboard.uniqueDepartments regs)%nat).
Proof.
  split; [apply filter_length_le|]. split; [|split].
  - unfold AdminDashboard.uniqueDepartments.
    etransitivity; [apply size_list_to_set_le | now rewrite length_map].
  - intros Hne. destruct regs as [|r l]; [contradiction|].
    unfold AdminDashboard.uniqueDepartments. cbn [map list_to_set foldr].
    rewrite size_union_alt, size_singleton. lia.
  - intros e id photoUrl. cbv zeta. rewrite delete_success_eq.
    split; [apply filter_length_le|]. split.
    + unfold AdminDashboard.todaySubmissions.
      induction regs as [|r l IH]; [reflexivity|]. cbn [List.filter].
      destruct (Spec.keeps id r); cbn [List.filter];
        destruct (String.eqb _ today); cbn [length]; lia.
    + unfold AdminDashboard.uniqueDepartments.
      apply subseteq_size, departments_subset.
Qed.

(** ** The session gate of the dashboard *)

(** X23. The dashboard is rendered exactly when the session is resolved and
    belongs to an admin; the redirect to the login page is issued exactly
    when the blank page is rendered, never while the session is being
    resolved; whenever the dashboard is rendered the records are fetched
    and no redirect is issued. *)
Theorem dashboard_gate (user isAdmin authLoading : bool) :
  (AdminDashboard.render user isAdmin authLoading = AdminDashboard.Dashboard
   <-> authLoading = false /\ user = true /\ isAdmin = true)
  /\ (AdminDashboard.redirects user isAdmin authLoading = true
      <-> AdminDashboard.render user isAdmin authLoading = AdminDashboard.Blank)
  /\ (authLoading = true ->
      AdminDashboard.redirects user isAdmin authLoading = false
      /\ AdminDashboard.render user isAdmin authLoading = AdminDashboard.Spinner)
  /\ (AdminDashboard.render user isAdmin authLoading = AdminDashboard.Dashboard ->
      AdminDashboard.fetches user isAdmin = true
      /\ AdminDashboard.redirects user isAdmin authLoading = false).
Proof.
  destruct user, isAdmin, authLoading; cbn;
    repeat split; try discriminate; try reflexivity;
    try (intros (? & ? & ?); discriminate).
Qed.

(** ** Sign-up of an admin *)


(** ** More on the search *)

Lemma append_empty_r (s : string) : s +:+ "" = s.
Proof.
  induction s as [|c s IH]; [reflexivity|].
  change (String c (s +:+ "") = String c s). now rewrite IH.
Qed.

Lemma append_assoc (a b c : string) : (a +:+ b) +:+ c = a +:+ (b +:+ c).
Proof.
  induction a as [|x a IH]; [reflexivity|].
  change (String x ((a +:+ b) +:+ c) = String x (a +:+ (b +:+ c))).
  now rewrite IH.
Qed.

Lemma substring_refl (s : string) : Spec.substring s s.
Proof. exists "", "". change (s = s +:+ ""). now rewrite append_empty_r. Qed.

Lemma substring_trans (a b c : string) :
  Spec.substring a b -> Spec.substring b c -> Spec.substring a c.
Proof.
  intros (p & q & ->) (p' & q' & ->). exists (p' +:+ p), (q +:+ q').
  now rewrite !append_assoc.
Qed.

Lemma matches_narrower (s s' d : string) (r : Registration) :
  Spec.substring s s' -> Spec.ci_substring s s' ->
  Spec.matches s' d r -> Spec.matches s d r.
Proof.
  unfold Spec.matches, Spec.ci_substring. intros Hraw Hlow [[H | [H | H]] Hd];
    (split; [|exact Hd]); eauto using substring_trans.
Qed.

Lemma filter_sublist_impl {A} (f g : A -> bool) (l : list A) :
  (forall x, f x = true -> g x = true) ->
  sublist (List.filter f l) (List.filter g l).
Proof.
  intros Himp. induction l as [|x l IH]; [constructor|]. simpl.
  destruct (f x) eqn:Ef.
  - rewrite (Himp x Ef). now constructor.
  - destruct (g x); [now constructor | exact IH].
Qed.

(** X25. A record is found by its own name, mobile number or email: a search
    text that is the name or the email up to the case of its letters, or
    that is the mobile number, keeps the record in the view, under the
    selection "all" and under the record's own department. *)
Theorem found_by_own_fields (regs : list Registration) (r : Registration)
    (s : string) (Hr : In r regs)
    (Hs : JS.toLowerCase s = JS.toLowerCase (Registration.full_name r)
          \/ s = Registration.mobile_number r
          \/ JS.toLowerCase s = JS.toLowerCase (Registration.email r)) :
  In r (RegistrationsTable.filteredRegistrations regs s "all")
  /\ In r (RegistrationsTable.filteredRegistrations regs s
             (Registration.department r)).
Proof.
  assert (Hm : forall d, d = "all" \/ Registration.department r = d ->
                         Spec.matches s d r).
  { intros d Hd. split; [|exact Hd]. unfold Spec.ci_substring.
    destruct Hs as [-> | [-> | ->]]; auto using substring_refl. }
  unfold RegistrationsTable.filteredRegistrations.
  split; apply filter_In; (split; [exact Hr|]); apply matches_reflect, Hm; auto.
Qed.

Lemma found_by_own_fields_witness :
  (In ben [ann; ben]
   /\ (JS.toLowerCase "BEN" = JS.toLowerCase (Registration.full_name ben)
       \/ "BEN" = Registration.mobile_number ben
       \/ JS.toLowerCase "BEN" = JS.toLowerCase (Registration.email ben)))
  /\ In ben (RegistrationsTable.filteredRegistrations [ann; ben] "BEN" "all").
Proof.
  assert (Hr : In ben [ann; ben]) by (right; now left).
  assert (Hs : JS.toLowerCase "BEN" = JS.toLowerCase (Registration.full_name ben)
               \/ "BEN" = Registration.mobile_number ben
               \/ JS.toLowerCase "BEN" = JS.toLowerCase (Registration.email ben))
    by (left; reflexivity).
  split; [now split|].
  exact (proj1 (found_by_own_fields [ann; ben] ben "BEN" Hr Hs)).
Defined.

(** X26. A narrower search never adds rows: when a search text occurs in
    another one both as typed and after lower-casing, the view for the
    containing text is a sub-list of the view for the contained text, under
    the same department selection. *)
Theorem narrower_search_shrinks_view (regs : list Registration)
    (s s' d : string)
    (Hraw : Spec.substring s s') (Hlow : Spec.ci_substring s s') :
  sublist (RegistrationsTable.filteredRegistrations regs s' d)
          (RegistrationsTable.filteredRegistrations regs s d).
Proof.
  unfold RegistrationsTable.filteredRegistrations.
  apply filter_sublist_impl. intros r H.
  apply matches_reflect. apply matches_reflect in H.
  exact (matches_narrower s s' d r Hraw Hlow H).
Qed.

Lemma narrower_search_shrinks_view_witness :
  (Spec.substring "en" "Ben" /\ Spec.ci_substring "en" "Ben")
  /\ sublist (RegistrationsTable.filteredRegistrations [ann; ben] "Ben" "all")
             (RegistrationsTable.filteredRegistrations [ann; ben] "en" "all").
Proof.
  assert (Hraw : Spec.substring "en" "Ben") by (exists "B", ""; reflexivity).
  assert (Hlow : Spec.ci_substring "en" "Ben") by (exists "b", ""; reflexivity).
  split; [now split|].
  exact (narrower_search_shrinks_view [ann; ben] "en" "Ben" "all" Hraw Hlow).
Defined.
